(** * SFWA-ABI v1 compliance harness: a shallow embedding of
      [src/harness/sfwa_harness.py] and the properties of its two checkers.

    Layout: Python strings and values, the outcome-and-trace monad, the
    document tree with the XPath fragment the harness generates, then
    [check_html], [check_js] and [main] as the source writes them, and
    finally the theorems. *)

From Stdlib Require Import ZArith Floats Ascii String List Bool Lia.
From stdpp Require Import base strings list gmap pretty.

Import ListNotations.
Set Warnings "-register-all".
Local Open Scope string_scope.
Local Open Scope list_scope.

(** ** Python [str]

    A Python string is a sequence of code points.  The embedding keeps the
    code points 0..255, one [ascii] per code point, which is where every
    constant of the harness lives. *)
Module PyStr.

Definition code (c : ascii) : nat := nat_of_ascii c.

(** [str.isspace] on one code point below 256: TAB..CR, FS..US, SPACE,
    NEL and NBSP. *)
Definition isspace (c : ascii) : bool :=
  let n := code c in
  (((9 <=? n) && (n <=? 13)) || ((28 <=? n) && (n <=? 32))
   || (n =? 133) || (n =? 160))%nat.

Fixpoint lstrip (s : string) : string :=
  match s with
  | EmptyString => EmptyString
  | String c r => if isspace c then lstrip r else s
  end.

Fixpoint rstrip (s : string) : string :=
  match s with
  | EmptyString => EmptyString
  | String c r =>
      match rstrip r with
      | EmptyString => if isspace c then EmptyString else String c EmptyString
      | r' => String c r'
      end
  end.

(** [s.strip()] *)
Definition strip (s : string) : string := rstrip (lstrip s).

(** Truth value of a string: [bool(s)]. *)
Definition truthy (s : string) : bool :=
  match s with EmptyString => false | _ => true end.

(** [a or b] on strings. *)
Definition or_else (a b : string) : string := if truthy a then a else b.

(** [sep.join(l)] *)
Fixpoint join (sep : string) (l : list string) : string :=
  match l with
  | [] => ""
  | [x] => x
  | x :: r => x +:+ sep +:+ join sep r
  end.

(** [s[:n]] *)
Fixpoint prefix (n : nat) (s : string) : string :=
  match n, s with
  | S k, String c r => String c (prefix k r)
  | _, _ => EmptyString
  end.

(** [c in s] for a code point. *)
Fixpoint mem (c : ascii) (s : string) : bool :=
  match s with
  | EmptyString => false
  | String d r => if Ascii.eqb c d then true else mem c r
  end.

(** [str(x)] for an optional string: [None] prints as its name. *)
Definition of_option (o : option string) : string :=
  match o with Some s => s | None => "None" end.

End PyStr.

(** ** Python values, as [json.loads] produces them and as the detail
    records of a [CheckResult] hold them.  A [dict] keeps insertion order,
    hence the association list. *)
Inductive pyval : Type :=
| PNone
| PBool (b : bool)
| PInt (z : Z)
| PFloat (f : float)
| PStr (s : string)
| PList (l : list pyval)
| PTuple (l : list pyval)
| PDict (d : list (string * pyval)).

Module Py.

(** [bool(v)] *)
Definition truthy (v : pyval) : bool :=
  match v with
  | PNone => false
  | PBool b => b
  | PInt z => negb (z =? 0)%Z
  | PFloat f => negb (PrimFloat.eqb f PrimFloat.zero)
  | PStr s => PyStr.truthy s
  | PList l | PTuple l => match l with [] => false | _ => true end
  | PDict d => match d with [] => false | _ => true end
  end.

(** [a or b] *)
Definition or_else (a b : pyval) : pyval := if truthy a then a else b.

Fixpoint assoc (k : string) (d : list (string * pyval)) : option pyval :=
  match d with
  | [] => None
  | (k', v) :: r => if String.eqb k k' then Some v else assoc k r
  end.

(** [d[k] = v] on an insertion-ordered dict. *)
Fixpoint assoc_set (k : string) (v : pyval) (d : list (string * pyval))
  : list (string * pyval) :=
  match d with
  | [] => [(k, v)]
  | (k', v') :: r =>
      if String.eqb k k' then (k, v) :: r else (k', v') :: assoc_set k v r
  end.

Definition strs (l : list string) : pyval := PList (map PStr l).

Definition int (n : nat) : pyval := PInt (Z.of_nat n).

End Py.

(** ** Outcomes and traces *)

(** Exceptions that leave a function of the harness uncaught. *)
Inductive exn : Type :=
| ValueError          (* lxml: string is not XML compatible *)
| XPathEvalError      (* lxml: the XPath expression does not parse *)
| AttributeError      (* attribute access on a value that lacks it *)
| TypeError           (* item assignment on a value that is not a dict *)
| SystemExit (code : Z).

(** What a call does: return, raise, or leave the modelled fragment (an
    XPath expression the engine below does not interpret). *)
Inductive outcome (A : Type) : Type :=
| Ret (a : A)
| Raise (e : exn)
| Beyond.
Arguments Ret {A} a.
Arguments Raise {A} e.
Arguments Beyond {A}.

(** The observable steps of a run, in order. *)
Inductive stream := Stdout | Stderr.

Inductive event : Type :=
| EvFromstring (text : string)          (* lxml_html.fromstring *)
| EvXPath (query : string)              (* doc.xpath *)
| EvRun (argv : list string)            (* subprocess.run *)
| EvJsonLoads (text : string)           (* json.loads *)
| EvReadJson (path : string)            (* _read_json *)
| EvReadText (path : string)            (* _read_text *)
| EvPrint (to : stream) (line : string) (* print *)
| EvPrintItem (item : pyval)            (* print(f"    - {e}") *)
| EvPrintJson (abi contractId : option string)
              (spec_path html_path : string)
              (results : list (string * (bool * pyval * pyval))).

Definition M (A : Type) : Type := list event * outcome A.

Definition raise {A} (e : exn) : M A := ([], Raise e).
Definition emit (e : event) : M unit := ([e], Ret tt).
Definition lift {A} (o : outcome A) : M A := ([], o).

#[global] Instance M_ret : MRet M := fun A a => ([], Ret a).

#[global] Instance M_bind : MBind M := fun A B k m =>
  match m with
  | (t, Ret a) => let '(t', o) := k a in (t ++ t', o)
  | (t, Raise e) => (t, Raise e)
  | (t, Beyond) => (t, Beyond)
  end.

Definition trace {A} (m : M A) : list event := fst m.
Definition result {A} (m : M A) : outcome A := snd m.

(** [for x in l: s = body(x, s)] *)
Fixpoint for_each {A S} (l : list A) (body : A -> S -> M S) (s : S) : M S :=
  match l with
  | [] => mret s
  | x :: r => s' ← body x s; for_each r body s'
  end.

(** ** The document tree

    What [lxml_html.fromstring] hands back: elements with a tag, an
    attribute dictionary and children.  Text nodes play no part in any
    query of the harness and are left out. *)
Inductive node : Type :=
| Elem (tag : string) (attrs : gmap string string) (children : list node).

Definition tag_of (n : node) : string := let 'Elem t _ _ := n in t.
Definition attrs_of (n : node) : gmap string string := let 'Elem _ a _ := n in a.

(** Every element of the tree, in document order: the range of [//]. *)
Fixpoint elements (n : node) : list node :=
  match n with
  | Elem _ _ cs => n :: List.flat_map elements cs
  end.

(** ** The XPath 1.0 fragment behind [doc.xpath]

    lxml first refuses a query string that is not XML compatible
    ([ValueError]), then hands it to libxml2, which raises
    [XPathEvalError] on a syntax error.  The engine below decides both for
    every string, and interprets the expressions of the shapes
    [//test], [//test[@a]], [//test[@a='lit']] and
    [//test[translate(@a,'from','to')='lit']]; a well-quoted string of
    another shape is [Beyond] the fragment. *)
Module XPath.

Definition squote : ascii := "'"%char.
Definition dquote : ascii := "034"%char.

Inductive nametest := AnyName | Named (n : string).
Inductive operand := Attr (a : string) | Translate (a from to : string).
Inductive predicate := HasAttr (a : string) | Equals (o : operand) (lit : string).
Record expr := Path { test : nametest; filter : option predicate }.

(** *** Lexical layer *)

(** The check of lxml's [_utf8]: no control character but TAB, LF, CR. *)
Definition xml_char (c : ascii) : bool :=
  let n := PyStr.code c in
  ((32 <=? n) || (n =? 9) || (n =? 10) || (n =? 13))%nat.

Fixpoint xml_compatible (s : string) : bool :=
  match s with
  | EmptyString => true
  | String c r => xml_char c && xml_compatible r
  end.

(** Up to the first [q], which is consumed. *)
Fixpoint until (q : ascii) (s : string) : option (string * string) :=
  match s with
  | EmptyString => None
  | String c r =>
      if Ascii.eqb c q then Some (EmptyString, r)
      else match until q r with
           | Some (lit, rest) => Some (String c lit, rest)
           | None => None
           end
  end.

(** Every literal that opens is closed.  Outside a literal a quote of
    either kind opens one; inside, only the same quote closes it. *)
Fixpoint literals_closed (open : option ascii) (s : string) : bool :=
  match s, open with
  | EmptyString, None => true
  | EmptyString, Some _ => false
  | String c r, None =>
      if Ascii.eqb c squote || Ascii.eqb c dquote
      then literals_closed (Some c) r
      else literals_closed None r
  | String c r, Some q =>
      if Ascii.eqb c q then literals_closed None r
      else literals_closed open r
  end.

Definition is_alpha (c : ascii) : bool :=
  let n := PyStr.code c in
  (((65 <=? n) && (n <=? 90)) || ((97 <=? n) && (n <=? 122)))%nat.

Definition is_digit (c : ascii) : bool :=
  let n := PyStr.code c in ((48 <=? n) && (n <=? 57))%nat.

(** NCName over ASCII: a letter or underscore, then letters, digits,
    underscore, hyphen and full stop. *)
Definition name_start (c : ascii) : bool :=
  is_alpha c || Ascii.eqb c "_"%char.

Definition name_char (c : ascii) : bool :=
  name_start c || is_digit c || Ascii.eqb c "-"%char || Ascii.eqb c "."%char.

Fixpoint span_name (s : string) : string * string :=
  match s with
  | EmptyString => (EmptyString, EmptyString)
  | String c r =>
      if name_char c
      then let '(n, rest) := span_name r in (String c n, rest)
      else (EmptyString, s)
  end.

Definition read_name (s : string) : option (string * string) :=
  match s with
  | String c _ => if name_start c then Some (span_name s) else None
  | EmptyString => None
  end.

Definition read_literal (s : string) : option (string * string) :=
  match s with
  | String q r =>
      if Ascii.eqb q squote || Ascii.eqb q dquote then until q r else None
  | EmptyString => None
  end.

(** [s] without the prefix [p]. *)
Fixpoint expect (p s : string) : option string :=
  match p, s with
  | EmptyString, _ => Some s
  | String a p', String b s' => if Ascii.eqb a b then expect p' s' else None
  | String _ _, EmptyString => None
  end.

(** *** Parsing *)

Definition read_test (s : string) : option (nametest * string) :=
  match s with
  | String "*" r => Some (AnyName, r)
  | _ => '(n, r) ← read_name s; Some (Named n, r)
  end.

Definition read_attr (s : string) : option (string * string) :=
  r ← expect "@" s; read_name r.

Definition read_predicate (s : string) : option (predicate * string) :=
  match expect "translate(" s with
  | Some r0 =>
      '(a, r1) ← read_attr r0;
      r2 ← expect "," r1;
      '(from, r3) ← read_literal r2;
      r4 ← expect "," r3;
      '(to, r5) ← read_literal r4;
      r6 ← expect ")=" r5;
      '(lit, r7) ← read_literal r6;
      Some (Equals (Translate a from to) lit, r7)
  | None =>
      '(a, r1) ← read_attr s;
      match expect "=" r1 with
      | Some r2 => '(lit, r3) ← read_literal r2; Some (Equals (Attr a) lit, r3)
      | None => Some (HasAttr a, r1)
      end
  end.

Definition parse (s : string) : option expr :=
  r0 ← expect "//" s;
  '(t, r1) ← read_test r0;
  match r1 with
  | EmptyString => Some (Path t None)
  | _ =>
      r2 ← expect "[" r1;
      '(p, r3) ← read_predicate r2;
      match r3 with
      | String "]" EmptyString => Some (Path t (Some p))
      | _ => None
      end
  end.

(** *** Evaluation *)

(** [translate(s, from, to)]: a code point of [from] becomes the code
    point of [to] at the same place, or goes when [to] is too short. *)
Fixpoint translate_char (c : ascii) (from to : string) : option ascii :=
  match from with
  | EmptyString => Some c
  | String f from' =>
      if Ascii.eqb c f
      then match to with String t _ => Some t | EmptyString => None end
      else translate_char c from'
             (match to with String _ to' => to' | EmptyString => EmptyString end)
  end.

Fixpoint translate (s from to : string) : string :=
  match s with
  | EmptyString => EmptyString
  | String c r =>
      match translate_char c from to with
      | Some c' => String c' (translate r from to)
      | None => translate r from to
      end
  end.

Definition test_ok (t : nametest) (n : node) : bool :=
  match t with
  | AnyName => true
  | Named x => String.eqb (tag_of n) x
  end.

(** A node-set equals a literal when one of its nodes has that string
    value; a node-set turned into a string is its first node's value, or
    the empty string. *)
Definition holds (p : predicate) (n : node) : bool :=
  match p with
  | HasAttr a => bool_decide (is_Some (attrs_of n !! a))
  | Equals (Attr a) lit => bool_decide (attrs_of n !! a = Some lit)
  | Equals (Translate a from to) lit =>
      String.eqb (translate (default EmptyString (attrs_of n !! a)) from to) lit
  end.

Definition matches (e : expr) (n : node) : bool :=
  test_ok (test e) n &&
  match filter e with Some p => holds p n | None => true end.

Definition select (e : expr) (doc : node) : list node :=
  List.filter (matches e) (elements doc).

(** [doc.xpath(query)] *)
Definition eval (doc : node) (query : string) : outcome (list node) :=
  if negb (xml_compatible query) then Raise ValueError
  else if negb (literals_closed None query) then Raise XPathEvalError
  else match parse query with
       | Some e => Ret (select e doc)
       | None => Beyond
       end.

End XPath.

(** ** The spec file and the check result *)

(** One entry of [html.requires.dataAttributes]; a field is [None] when the
    key is absent or [null]. *)
Record DataAttribute := {
  da_name : option string;
  da_values : option (list string)
}.

Record Requires := {
  ids : option (list string);
  selectors : option (list string);
  dataAttributes : option (list DataAttribute)
}.

Record HtmlSection := { requires : option Requires }.

Record Spec := {
  abi : option string;
  contractId : option string;
  html : option HtmlSection
}.

(** The [CheckResult] dataclass.  Python does not enforce the annotations
    of [errors] and [details]; [check_js] stores what the payload holds. *)
Record CheckResult := {
  ok : bool;
  errors : pyval;
  details : pyval
}.

Record CompletedProcess := {
  returncode : Z;
  stdout : string;
  stderr : string
}.

(** ** The host: the libraries and the operating system the harness calls.
    A call answers [inr] with its value, or [inl] with [str(e)] of the
    exception it raised. *)
Record Host := {
  fromstring : string -> string + node;
  subprocess_run : list string -> bool -> string + CompletedProcess;
  json_loads : string -> string + pyval;
  read_json : string -> string + Spec;
  read_text : string -> string + string
}.

(** The two spellings of the viewport selector. *)
Definition viewport_single : string := "meta[name='viewport']".
Definition viewport_double : string :=
  "meta[name=" +:+ String XPath.dquote "viewport" +:+ String XPath.dquote "]".

Definition viewport_query : string :=
  "//meta[translate(@name,'ABCDEFGHIJKLMNOPQRSTUVWXYZ','abcdefghijklmnopqrstuvwxyz')='viewport']".

Definition id_query (idv : string) : string := "//*[@id='" +:+ idv +:+ "']".

Definition attr_query (name v : string) : string :=
  "//*[@" +:+ name +:+ "='" +:+ v +:+ "']".

Definition _xpath_count (doc : node) (xpath : string) : M nat :=
  emit (EvXPath xpath);;
  nodes ← lift (XPath.eval doc xpath);
  mret (length nodes).

(** Body of [for idv in ids]. *)
Definition ids_step (doc : node) (idv : string)
    (acc : list string * list (string * nat)) : M (list string * list (string * nat)) :=
  let '(missing, dupes) := acc in
  n ← _xpath_count doc (id_query idv);
  if (n =? 0)%nat then mret (missing ++ [idv], dupes)
  else if (1 <? n)%nat then mret (missing, dupes ++ [(idv, n)])
  else mret (missing, dupes).

(** Body of [for sel in selectors]. *)
Definition selectors_step (doc : node) (sel0 : string)
    (acc : list string * list string) : M (list string * list string) :=
  let '(sel_missing, unsupported) := acc in
  let sel := PyStr.strip sel0 in
  if String.eqb sel "title" then
    n ← _xpath_count doc "//title";
    if (n =? 0)%nat then mret (sel_missing ++ [sel], unsupported) else mret acc
  else if String.eqb sel "meta[charset]" then
    n ← _xpath_count doc "//meta[@charset]";
    if (n =? 0)%nat then mret (sel_missing ++ [sel], unsupported) else mret acc
  else if String.eqb sel viewport_single || String.eqb sel viewport_double then
    n ← _xpath_count doc viewport_query;
    if (n =? 0)%nat then mret (sel_missing ++ [viewport_single], unsupported)
    else mret acc
  else mret (sel_missing, unsupported ++ [sel]).

(** Body of [for v in values]. *)
Definition values_step (doc : node) (name v : string)
    (acc : list string * list string) : M (list string * list string) :=
  let '(enforced, da_missing) := acc in
  n ← _xpath_count doc (attr_query name v);
  if (n =? 0)%nat then mret (enforced, da_missing ++ [name +:+ "=" +:+ v])
  else mret (enforced ++ [name +:+ "=" +:+ v], da_missing).

(** Body of [for da in data_attrs]. *)
Definition data_attrs_step (doc : node) (da : DataAttribute)
    (acc : list string * list string) : M (list string * list string) :=
  let name := da_name da in
  let values := default [] (da_values da) in
  match name, values with
  | None, _ | Some EmptyString, _ | _, [] => mret acc
  | Some name, _ => for_each values (values_step doc name) acc
  end.

Definition dupe_text (d : string * nat) : string :=
  fst d +:+ " (count=" +:+ pretty (snd d) +:+ ")".

Definition dupe_value (d : string * nat) : pyval :=
  PTuple [PStr (fst d); Py.int (snd d)].

Definition nonempty {A} (l : list A) : bool :=
  match l with [] => false | _ => true end.

(** The command line after [argparse]. *)
Inductive Mode := ModeHtml | ModeJs | ModeAll.

Record Args := {
  arg_spec : string;
  arg_html : string;
  arg_mode : Mode;
  arg_json : bool;
  arg_node_harness : string
}.

Section Harness.

Variable H : Host.

Definition check_html (spec : Spec) (html_text : string) : M CheckResult :=
  let errs : list string := [] in
  let details : list (string * pyval) := [] in
  emit (EvFromstring html_text);;
  match fromstring H html_text with
  | inl e =>
      mret {| ok := false;
              errors := Py.strs ["HTML parse error: " +:+ e];
              details := PDict [] |}
  | inr doc =>
      let req := html spec ≫= requires in
      let ids : list string := default [] (req ≫= ids) in
      let selectors : list string := default [] (req ≫= selectors) in
      let data_attrs := default [] (req ≫= dataAttributes) in
      (* ID existence (exactly once) *)
      '(missing, dupes) ← for_each ids (ids_step doc) ([], []);
      let errs :=
        if nonempty missing
        then errs ++ ["Missing required id(s): " +:+ PyStr.join ", " missing]
        else errs in
      let errs :=
        if nonempty dupes
        then errs ++ ["Duplicate id(s) found: "
                        +:+ PyStr.join ", " (map dupe_text dupes)]
        else errs in
      let details :=
        Py.assoc_set "requiredIds"
          (PDict [("count", Py.int (length ids));
                  ("missing", Py.strs missing);
                  ("duplicates", PList (map dupe_value dupes))]) details in
      (* selectors *)
      '(sel_missing, unsupported) ← for_each selectors (selectors_step doc) ([], []);
      let errs :=
        if nonempty sel_missing
        then errs ++ ["Missing required selector(s): "
                        +:+ PyStr.join ", " sel_missing]
        else errs in
      let details :=
        Py.assoc_set "requiredSelectors"
          (PDict [("count", Py.int (length selectors));
                  ("missing", Py.strs sel_missing);
                  ("unsupported", Py.strs unsupported)]) details in
      (* dataAttributes: only enforce if values list is non-empty *)
      '(enforced, da_missing) ← for_each data_attrs (data_attrs_step doc) ([], []);
      let errs :=
        if nonempty da_missing
        then errs ++ ["Missing required data-attribute instance(s): "
                        +:+ PyStr.join ", " da_missing]
        else errs in
      let details :=
        Py.assoc_set "dataAttributes"
          (PDict [("enforced", Py.strs enforced);
                  ("missing", Py.strs da_missing)]) details in
      mret {| ok := (length errs =? 0)%nat;
              errors := Py.strs errs;
              details := PDict details |}
  end.

(** [payload.get(key)]: only a dict has the method. *)
Definition py_get (v : pyval) (key : string) : M pyval :=
  match v with
  | PDict d => mret (default PNone (Py.assoc key d))
  | _ => raise AttributeError
  end.

(** [target[key] = v]: only a dict takes a string key. *)
Definition py_setitem (target : pyval) (key : string) (v : pyval) : M pyval :=
  match target with
  | PDict d => mret (PDict (Py.assoc_set key v d))
  | _ => raise TypeError
  end.

Definition newline : string := String "010"%char EmptyString.

Definition check_js (spec_path html_path node_script_path : string) : M CheckResult :=
  (* Ensure node is available *)
  emit (EvRun ["node"; "--version"]);;
  match subprocess_run H ["node"; "--version"] true with
  | inl e =>
      mret {| ok := false;
              errors := Py.strs ["Node.js not available: " +:+ e];
              details := PDict [] |}
  | inr _ =>
      let argv := ["node"; node_script_path; "--spec"; spec_path; "--html"; html_path] in
      emit (EvRun argv);;
      match subprocess_run H argv false with
      | inl e =>
          mret {| ok := false;
                  errors := Py.strs ["Failed to execute JS harness: " +:+ e];
                  details := PDict [] |}
      | inr p =>
          if (returncode p =? 2)%Z then
            mret {| ok := false;
                    errors := Py.strs ["JS harness internal error:" +:+ newline
                                         +:+ PyStr.or_else (stderr p) (stdout p)];
                    details := PDict [] |}
          else if negb (PyStr.truthy (PyStr.strip (stdout p))) then
            mret {| ok := false;
                    errors := Py.strs ["JS harness produced no output.";
                                       PyStr.strip (stderr p)];
                    details := PDict [] |}
          else
            emit (EvJsonLoads (stdout p));;
            match json_loads H (stdout p) with
            | inl e =>
                mret {| ok := false;
                        errors := Py.strs ["JS harness output was not valid JSON: " +:+ e;
                                           PyStr.prefix 4000 (stdout p)];
                        details := PDict [("stderr", PStr (stderr p))] |}
            | inr payload =>
                ok_field ← py_get payload "ok";
                let ok := Py.truthy ok_field in
                errors_field ← py_get payload "errors";
                let errors :=
                  Py.or_else errors_field
                    (if ok then PList [] else Py.strs ["JS compliance failed."]) in
                details_field ← py_get payload "details";
                let details := Py.or_else details_field (PDict []) in
                details ←
                  (if PyStr.truthy (PyStr.strip (stderr p))
                   then py_setitem details "stderr" (PStr (PyStr.strip (stderr p)))
                   else mret details);
                mret {| ok := ok; errors := errors; details := details |}
            end
      end
  end.

(** [for e in v]: the items of a list or tuple, the code points of a
    string, the keys of a dict; anything else is not iterable. *)
Definition py_iter (v : pyval) : M (list pyval) :=
  match v with
  | PList l | PTuple l => mret l
  | PStr s => mret (map (fun c => PStr (String c EmptyString)) (list_ascii_of_string s))
  | PDict d => mret (map (fun kv => PStr (fst kv)) d)
  | _ => raise TypeError
  end.

Definition sys_exit {A} (code : Z) : M A := raise (SystemExit code).

(** [0 if overall_ok else 1] *)
Definition exit_code (b : bool) : Z := if b then 0%Z else 1%Z.

Definition pass_fail (b : bool) : string := if b then "PASS" else "FAIL".

(** The lines of the text report for one check kind, when it ran. *)
Definition print_kind (label key : string) (results : list (string * CheckResult))
  : M unit :=
  match List.find (fun kr => String.eqb (fst kr) key) results with
  | Some (_, r) =>
      emit (EvPrint Stdout (label +:+ pass_fail (ok r)));;
      items ← py_iter (errors r);
      for_each items (fun e _ => emit (EvPrintItem e)) tt
  | None => mret tt
  end.

Definition report_entry (kr : string * CheckResult) : string * (bool * pyval * pyval) :=
  (fst kr, (ok (snd kr), errors (snd kr), details (snd kr))).

(** [_read_json(path)] and [_read_text(path)]: the content, or [str(e)] of
    the exception that [main] catches around the call. *)
Definition _read_json (path : string) : M (string + Spec) :=
  emit (EvReadJson path);; mret (read_json H path).

Definition _read_text (path : string) : M (string + string) :=
  emit (EvReadText path);; mret (read_text H path).

Definition main (args : Args) : M unit :=
  loaded ← _read_json (arg_spec args);
  match loaded with
  | inl e =>
      emit (EvPrint Stderr ("Error: cannot read spec: " +:+ e));;
      sys_exit 2
  | inr spec =>
      if negb (bool_decide (abi spec = Some "sfwa-abi-1")) then
        emit (EvPrint Stderr ("Error: unsupported abi '" +:+ PyStr.of_option (abi spec)
                                +:+ "'. Expected 'sfwa-abi-1'."));;
        sys_exit 2
      else
        text ← _read_text (arg_html args);
        match text with
        | inl e =>
            emit (EvPrint Stderr ("Error: cannot read HTML file: " +:+ e));;
            sys_exit 2
        | inr html_text =>
            let results : list (string * CheckResult) := [] in
            let overall_ok := true in
            '(results, overall_ok) ←
              (match arg_mode args with
               | ModeHtml | ModeAll =>
                   r ← check_html spec html_text;
                   mret (results ++ [("html", r)], overall_ok && ok r)
               | ModeJs => mret (results, overall_ok)
               end : M (list (string * CheckResult) * bool));
            '(results, overall_ok) ←
              (match arg_mode args with
               | ModeJs | ModeAll =>
                   r ← check_js (arg_spec args) (arg_html args) (arg_node_harness args);
                   mret (results ++ [("js", r)], overall_ok && ok r)
               | ModeHtml => mret (results, overall_ok)
               end : M (list (string * CheckResult) * bool));
            (if arg_json args then
               emit (EvPrintJson (abi spec) (contractId spec)
                       (arg_spec args) (arg_html args) (map report_entry results))
             else
               emit (EvPrint Stdout ("SFWA Harness Report: "
                                       +:+ PyStr.of_option (contractId spec)));;
               print_kind "  HTML: " "html" results;;
               print_kind "  JS:   " "js" results;;
               emit (EvPrint Stdout ("Overall: " +:+ pass_fail overall_ok)));;
            sys_exit (exit_code overall_ok)
        end
  end.

End Harness.

(** ** What the document holds, in the words of the requirement groups *)

(** [countById]: elements whose [id] attribute is exactly [idv]. *)
Definition countById (doc : node) (idv : string) : nat :=
  length (List.filter (fun n => bool_decide (attrs_of n !! "id" = Some idv))
            (elements doc)).

(** Some element named [t] exists. *)
Definition exists_tag (doc : node) (t : string) : bool :=
  existsb (fun n => String.eqb (tag_of n) t) (elements doc).

(** Some [meta] element carries a [charset] attribute. *)
Definition exists_meta_charset (doc : node) : bool :=
  existsb (fun n => String.eqb (tag_of n) "meta"
                    && bool_decide (is_Some (attrs_of n !! "charset")))
    (elements doc).

(** ASCII lower-casing of one code point and of a string. *)
Definition lower_char (c : ascii) : ascii :=
  let n := PyStr.code c in
  if ((65 <=? n) && (n <=? 90))%nat then ascii_of_nat (n + 32) else c.

Fixpoint lower (s : string) : string :=
  match s with
  | EmptyString => EmptyString
  | String c r => String (lower_char c) (lower r)
  end.

(** The element carries a [name] attribute that reads [viewport] up to
    the case of ASCII letters. *)
Definition names_viewport (n : node) : bool :=
  match attrs_of n !! "name" with
  | Some v => String.eqb (lower v) "viewport"
  | None => false
  end.

Definition is_viewport_meta (n : node) : bool :=
  String.eqb (tag_of n) "meta" && names_viewport n.

(** Some element carries attribute [a] with exactly the value [v]. *)
Definition exists_attr_value (doc : node) (a v : string) : bool :=
  existsb (fun n => bool_decide (attrs_of n !! a = Some v)) (elements doc).

(** What a recognized selector asks of the document; [None] for a selector
    outside the vocabulary. *)
Definition selector_target (doc : node) (sel : string) : option bool :=
  let sel := PyStr.strip sel in
  if String.eqb sel "title" then Some (exists_tag doc "title")
  else if String.eqb sel "meta[charset]" then Some (exists_meta_charset doc)
  else if String.eqb sel viewport_single || String.eqb sel viewport_double
  then Some (existsb is_viewport_meta (elements doc))
  else None.

(** An entry of [dataAttributes] that the checker enforces, as the pair of
    its name and values. *)
Definition enforced_entry (da : DataAttribute) : option (string * list string) :=
  match da_name da, da_values da with
  | Some (String c r), Some (v :: vs) => Some (String c r, v :: vs)
  | _, _ => None
  end.

(** An entry the checker passes over: no name or no values. *)
Definition skipped (da : DataAttribute) : Prop :=
  da_name da = None \/ da_name da = Some EmptyString \/
  da_values da = None \/ da_values da = Some [].

(** A string that goes unchanged inside a single-quoted XPath literal. *)
Definition literal_safe (v : string) : bool :=
  XPath.xml_compatible v && negb (PyStr.mem XPath.squote v).

Fixpoint all_name_chars (s : string) : bool :=
  match s with
  | EmptyString => true
  | String c r => XPath.name_char c && all_name_chars r
  end.

(** An attribute name the fragment reads back as one name. *)
Definition is_ncname (s : string) : bool :=
  match s with
  | EmptyString => false
  | String c _ => XPath.name_start c && all_name_chars s
  end.

Definition the_requires (spec : Spec) : option Requires :=
  html spec ≫= requires.

Definition the_ids (spec : Spec) : list string :=
  default [] (the_requires spec ≫= ids).

Definition the_selectors (spec : Spec) : list string :=
  default [] (the_requires spec ≫= selectors).

Definition the_data_attrs (spec : Spec) : list DataAttribute :=
  default [] (the_requires spec ≫= dataAttributes).

(** The spec with another [dataAttributes] list. *)
Definition with_data_attrs (spec : Spec) (das : list DataAttribute) : Spec :=
  {| abi := abi spec;
     contractId := contractId spec;
     html := Some {| requires := Some
       {| ids := the_requires spec ≫= ids;
          selectors := the_requires spec ≫= selectors;
          dataAttributes := Some das |} |} |}.

(** A spec that requires only ids, only selectors, only data attributes. *)
Definition spec_of (i : list string) (s : list string) (d : list DataAttribute) : Spec :=
  {| abi := Some "sfwa-abi-1";
     contractId := None;
     html := Some {| requires := Some
       {| ids := Some i; selectors := Some s; dataAttributes := Some d |} |} |}.

(** The strings in a list of Python values. *)
Definition has_nonempty_string (v : pyval) : Prop :=
  exists l s, v = PList l /\ In (PStr s) l /\ s <> EmptyString.

(** The error lines and the result [check_html] assembles from what its
    three loops collected. *)
Definition html_errors (missing : list string) (dupes : list (string * nat))
    (sel_missing da_missing : list string) : list string :=
  (if nonempty missing
   then ["Missing required id(s): " +:+ PyStr.join ", " missing] else [])
  ++ (if nonempty dupes
      then ["Duplicate id(s) found: " +:+ PyStr.join ", " (map dupe_text dupes)]
      else [])
  ++ (if nonempty sel_missing
      then ["Missing required selector(s): " +:+ PyStr.join ", " sel_missing]
      else [])
  ++ (if nonempty da_missing
      then ["Missing required data-attribute instance(s): "
              +:+ PyStr.join ", " da_missing]
      else []).

Definition html_result (ids selectors : list string)
    (a : list string * list (string * nat))
    (b c : list string * list string) : CheckResult :=
  let errs := html_errors (fst a) (snd a) (fst b) (snd c) in
  {| ok := (length errs =? 0)%nat;
     errors := Py.strs errs;
     details := PDict
       [("requiredIds",
         PDict [("count", Py.int (length ids));
                ("missing", Py.strs (fst a));
                ("duplicates", PList (map dupe_value (snd a)))]);
        ("requiredSelectors",
         PDict [("count", Py.int (length selectors));
                ("missing", Py.strs (fst b));
                ("unsupported", Py.strs (snd b))]);
        ("dataAttributes",
         PDict [("enforced", Py.strs (fst c));
                ("missing", Py.strs (snd c))])] |}.

(** The document meets every requirement of the spec, group by group. *)
Definition satisfies (doc : node) (spec : Spec) : Prop :=
  Forall (fun idv => countById doc idv = 1) (the_ids spec) /\
  Forall (fun sel => selector_target doc sel <> Some false) (the_selectors spec) /\
  Forall (fun da => forall name values,
            enforced_entry da = Some (name, values) ->
            Forall (fun v => exists_attr_value doc name v = true) values)
    (the_data_attrs spec).

(** Every string the spec has the checker splice into a query stays
    inside its place in the query: ids and values inside the literal,
    names as one attribute name. *)
Definition splice_safe (spec : Spec) : Prop :=
  Forall (fun idv => literal_safe idv = true) (the_ids spec) /\
  Forall (fun da => forall name values,
            enforced_entry da = Some (name, values) ->
            is_ncname name = true /\
            Forall (fun v => literal_safe v = true) values)
    (the_data_attrs spec).

(** ** Concrete runs *)

(** A host whose parser refuses the empty text (lxml: the document is
    empty) and reads any other text as [doc]; it has no node runtime. *)
Definition host_parsing (doc : node) : Host :=
  {| fromstring := fun s =>
       match s with EmptyString => inl "Document is empty" | _ => inr doc end;
     subprocess_run := fun _ _ => inl "[Errno 2] No such file or directory: 'node'";
     json_loads := fun _ => inl "Expecting value: line 1 column 1 (char 0)";
     read_json := fun _ => inl "[Errno 2] No such file or directory";
     read_text := fun _ => inl "[Errno 2] No such file or directory" |}.

(** The end-to-end example: a title and one [div] with id [app]. *)
Definition app_text : string :=
  "<html><head><title>X</title></head><body><div id='app' data-role='main'></div></body></html>".

Definition app_page : node :=
  Elem "html" ∅
    [Elem "head" ∅ [Elem "title" ∅ []];
     Elem "body" ∅ [Elem "div" {[ "id" := "app"; "data-role" := "main" ]} []]].

Definition app_spec : Spec :=
  spec_of ["app"] ["title"]
    [{| da_name := Some "data-role"; da_values := Some ["main"] |}].

(** A page whose only [div] has the id ['], and a spec that requires it. *)
Definition quote_text : string := "<html><body><div id=&#39;></div></body></html>".

Definition quote_page : node :=
  Elem "html" ∅ [Elem "body" ∅ [Elem "div" {[ "id" := "'" ]} []]].

Definition quote_spec : Spec := spec_of ["'"] [] [].

(** A page whose [div], not a [meta], is named [viewport]. *)
Definition named_div_text : string :=
  "<html><body><div name='viewport'></div></body></html>".

Definition named_div_page : node :=
  Elem "html" ∅ [Elem "body" ∅ [Elem "div" {[ "name" := "viewport" ]} []]].

(** A page with a viewport [meta] in mixed case. *)
Definition viewport_text : string :=
  "<html><head><meta name='ViewPort' content='width=device-width'></head></html>".

Definition viewport_page : node :=
  Elem "html" ∅
    [Elem "head" ∅
       [Elem "meta" {[ "name" := "ViewPort"; "content" := "width=device-width" ]} []]].

(** What a run decided, when it returned: [ok] and [errors]. *)
Definition verdict (m : M CheckResult) : option (bool * pyval) :=
  match result m with
  | Ret r => Some (ok r, errors r)
  | _ => None
  end.

(** The steps that belong to a checker: parsing the document, a query, a
    subprocess, decoding the payload. *)
Definition checker_event (e : event) : bool :=
  match e with
  | EvFromstring _ | EvXPath _ | EvRun _ | EvJsonLoads _ => true
  | _ => false
  end.

(** The command line of the external checker. *)
Definition checker_argv (spec_path html_path node_script_path : string) : list string :=
  ["node"; node_script_path; "--spec"; spec_path; "--html"; html_path].

(** What [check_js] makes of a decoded payload, given the captured
    standard error. *)
Definition payload_result (stderr_text : string) (payload : pyval) : M CheckResult :=
  ok_field ← py_get payload "ok";
  errors_field ← py_get payload "errors";
  details_field ← py_get payload "details";
  details ←
    (if PyStr.truthy (PyStr.strip stderr_text)
     then py_setitem (Py.or_else details_field (PDict [])) "stderr"
            (PStr (PyStr.strip stderr_text))
     else mret (Py.or_else details_field (PDict [])));
  mret {| ok := Py.truthy ok_field;
          errors := Py.or_else errors_field
                      (if Py.truthy ok_field then PList []
                       else Py.strs ["JS compliance failed."]);
          details := details |}.

(** A host with a node runtime: the version probe succeeds, the external
    checker completes as [p], its output decodes as [payload], and the
    spec file reads as [spec]. *)
Definition host_running (p : CompletedProcess) (payload : string + pyval)
    (spec : string + Spec) : Host :=
  {| fromstring := fun _ => inl "Document is empty";
     subprocess_run := fun argv _ =>
       if bool_decide (argv = ["node"; "--version"])
       then inr {| returncode := 0; stdout := "v18.19.0" +:+ newline; stderr := EmptyString |}
       else inr p;
     json_loads := fun _ => payload;
     read_json := fun _ => spec;
     read_text := fun _ => inl "[Errno 2] No such file or directory" |}.

Definition dq (s : string) : string :=
  String XPath.dquote s +:+ String XPath.dquote EmptyString.

(** The external checker reports failure with an empty errors list. *)
Definition empty_errors_run : CompletedProcess :=
  {| returncode := 1;
     stdout := "{" +:+ dq "ok" +:+ ": false, " +:+ dq "errors" +:+ ": []}";
     stderr := EmptyString |}.

Definition empty_errors_payload : pyval :=
  PDict [("ok", PBool false); ("errors", PList [])].

(** The external checker reports failure with one empty error string. *)
Definition blank_error_run : CompletedProcess :=
  {| returncode := 1;
     stdout := "{" +:+ dq "ok" +:+ ": false, " +:+ dq "errors" +:+ ": ["
               +:+ dq EmptyString +:+ "]}";
     stderr := EmptyString |}.

Definition blank_error_payload : pyval :=
  PDict [("ok", PBool false); ("errors", PList [PStr EmptyString])].

(** The external checker reports failure and names no errors. *)
Definition bare_failure_run : CompletedProcess :=
  {| returncode := 1;
     stdout := "{" +:+ dq "ok" +:+ ": false}";
     stderr := "warning: slow" +:+ newline |}.

Definition bare_failure_payload : pyval := PDict [("ok", PBool false)].

(** The external checker breaks down: sentinel exit code, a stack trace
    on standard error. *)
Definition crashed_run : CompletedProcess :=
  {| returncode := 2;
     stdout := "{" +:+ dq "ok" +:+ ": true}";
     stderr := "Error: cannot load jsdom" |}.

(** A spec of another dialect. *)
Definition other_dialect_spec : Spec :=
  {| abi := Some "sfwa-abi-2"; contractId := Some "demo"; html := None |}.

Definition demo_args : Args :=
  {| arg_spec := "app.sfwa-abi.json";
     arg_html := "app.html";
     arg_mode := ModeAll;
     arg_json := false;
     arg_node_harness := "sfwa_js_harness.mjs" |}.

(** ** The report in the words of the requirements

    What each list of the report holds, read off the document and the
    spec without running a query. *)

(** Required ids that no element carries, in spec order. *)
Definition missing_ids (doc : node) (ids : list string) : list string :=
  List.filter (fun idv => (countById doc idv =? 0)%nat) ids.

(** Required ids that more than one element carries, with their counts. *)
Definition duplicate_ids (doc : node) (ids : list string) : list (string * nat) :=
  map (fun idv => (idv, countById doc idv))
    (List.filter (fun idv => (1 <? countById doc idv)%nat) ids).

(** The name under which a recognized selector is reported. *)
Definition reported_selector (sel : string) : string :=
  if String.eqb (PyStr.strip sel) viewport_single
     || String.eqb (PyStr.strip sel) viewport_double
  then viewport_single else PyStr.strip sel.

(** The query a recognized selector runs. *)
Definition selector_query (sel : string) : string :=
  if String.eqb (PyStr.strip sel) "title" then "//title"
  else if String.eqb (PyStr.strip sel) "meta[charset]" then "//meta[@charset]"
  else viewport_query.

Definition missing_selectors (doc : node) (sels : list string) : list string :=
  List.flat_map (fun sel => match selector_target doc sel with
                            | Some false => [reported_selector sel]
                            | _ => []
                            end) sels.

Definition unsupported_selectors (doc : node) (sels : list string) : list string :=
  List.flat_map (fun sel => match selector_target doc sel with
                            | None => [PyStr.strip sel]
                            | Some _ => []
                            end) sels.

Definition selector_events (doc : node) (sels : list string) : list event :=
  List.flat_map (fun sel => match selector_target doc sel with
                            | Some _ => [EvXPath (selector_query sel)]
                            | None => []
                            end) sels.

(** The name and value pairs the spec enforces, in spec order. *)
Definition required_pairs (das : list DataAttribute) : list (string * string) :=
  List.flat_map (fun da => match enforced_entry da with
                           | Some (name, values) => map (pair name) values
                           | None => []
                           end) das.

Definition pair_text (nv : string * string) : string := fst nv +:+ "=" +:+ snd nv.

Definition pair_present (doc : node) (nv : string * string) : bool :=
  exists_attr_value doc (fst nv) (snd nv).

Definition enforced_pairs (doc : node) (das : list DataAttribute) : list string :=
  map pair_text (List.filter (pair_present doc) (required_pairs das)).

Definition missing_pairs (doc : node) (das : list DataAttribute) : list string :=
  map pair_text (List.filter (fun nv => negb (pair_present doc nv)) (required_pairs das)).

(** The whole report of a parsed document. *)
Definition expected_report (doc : node) (spec : Spec) : CheckResult :=
  html_result (the_ids spec) (the_selectors spec)
    (missing_ids doc (the_ids spec), duplicate_ids doc (the_ids spec))
    (missing_selectors doc (the_selectors spec),
     unsupported_selectors doc (the_selectors spec))
    (enforced_pairs doc (the_data_attrs spec), missing_pairs doc (the_data_attrs spec)).

(** The queries of a run, group after group. *)
Definition expected_queries (doc : node) (spec : Spec) : list event :=
  map (fun idv => EvXPath (id_query idv)) (the_ids spec)
  ++ selector_events doc (the_selectors spec)
  ++ map (fun nv => EvXPath (attr_query (fst nv) (snd nv)))
       (required_pairs (the_data_attrs spec)).

(** The spec with another [selectors] list. *)
Definition with_selectors (spec : Spec) (sels : list string) : Spec :=
  {| abi := abi spec;
     contractId := contractId spec;
     html := Some {| requires := Some
       {| ids := the_requires spec ≫= ids;
          selectors := Some sels;
          dataAttributes := the_requires spec ≫= dataAttributes |} |} |}.


(** A page on which the id [app] occurs three times and [main] never. *)
Definition crowded_text : string :=
  "<html><body><div id='app'><p id='app'></p><p id='app'></p></div></body></html>".

Definition crowded_page : node :=
  Elem "html" ∅
    [Elem "body" ∅
       [Elem "div" {[ "id" := "app" ]}
          [Elem "p" {[ "id" := "app" ]} []; Elem "p" {[ "id" := "app" ]} []]]].

(** A host with a node runtime on which the external checker cannot be
    launched. *)
Definition host_no_launch : Host :=
  {| fromstring := fun _ => inl "Document is empty";
     subprocess_run := fun argv _ =>
       if bool_decide (argv = ["node"; "--version"])
       then inr {| returncode := 0; stdout := "v18.19.0" +:+ newline; stderr := EmptyString |}
       else inl "[Errno 13] Permission denied: 'node'";
     json_loads := fun _ => inl "unused";
     read_json := fun _ => inl "unused";
     read_text := fun _ => inl "unused" |}.

Definition probe_run : CompletedProcess :=
  {| returncode := 0; stdout := "v18.19.0" +:+ newline; stderr := EmptyString |}.

(** The external checker prints blank lines only. *)
Definition silent_run : CompletedProcess :=
  {| returncode := 0;
     stdout := " " +:+ newline;
     stderr := "  TypeError: app is undefined " +:+ newline |}.

(** The external checker prints text that is not JSON. *)
Definition chatty_run : CompletedProcess :=
  {| returncode := 0; stdout := "all good"; stderr := EmptyString |}.

(** The external checker passes, with details and a warning. *)
Definition passing_run : CompletedProcess :=
  {| returncode := 0;
     stdout := "{" +:+ dq "details" +:+ ": {" +:+ dq "tests" +:+ ": 3}}";
     stderr := "warning: slow" +:+ newline |}.

Definition details_only_payload : list (string * pyval) :=
  [("details", PDict [("tests", PInt 3)])].

(** The same output from a checker that exited with code 1. *)
Definition passing_run_exit1 : CompletedProcess :=
  {| returncode := 1; stdout := stdout passing_run; stderr := stderr passing_run |}.

(** ** The phases of [main] after both files are read *)

(** The structural phase: runs in the modes [html] and [all]. *)
Definition html_phase (H : Host) (args : Args) (spec : Spec) (html_text : string)
  : M (list (string * CheckResult) * bool) :=
  match arg_mode args with
  | ModeHtml | ModeAll =>
      r ← check_html H spec html_text;
      mret ([] ++ [("html", r)], true && ok r)
  | ModeJs => mret ([], true)
  end.

(** The behavioral phase: runs in the modes [js] and [all]. *)
Definition js_phase (H : Host) (args : Args) (acc : list (string * CheckResult) * bool)
  : M (list (string * CheckResult) * bool) :=
  match arg_mode args with
  | ModeJs | ModeAll =>
      r ← check_js H (arg_spec args) (arg_html args) (arg_node_harness args);
      mret (fst acc ++ [("js", r)], snd acc && ok r)
  | ModeHtml => mret acc
  end.

(** The report: one JSON document, or the lines of the text report. *)
Definition print_report (args : Args) (spec : Spec)
    (results : list (string * CheckResult)) (overall_ok : bool) : M unit :=
  if arg_json args then
    emit (EvPrintJson (abi spec) (contractId spec)
            (arg_spec args) (arg_html args) (map report_entry results))
  else
    emit (EvPrint Stdout ("SFWA Harness Report: " +:+ PyStr.of_option (contractId spec)));;
    print_kind "  HTML: " "html" results;;
    print_kind "  JS:   " "js" results;;
    emit (EvPrint Stdout ("Overall: " +:+ pass_fail overall_ok)).

Definition run_checks (H : Host) (args : Args) (spec : Spec) (html_text : string)
  : M unit :=
  acc ← html_phase H args spec html_text;
  acc' ← js_phase H args acc;
  print_report args spec (fst acc') (snd acc');;
  sys_exit (exit_code (snd acc')).

(** Steps of the structural checker, of the bridge, and of printing. *)
Definition structural_event (e : event) : bool :=
  match e with EvFromstring _ | EvXPath _ => true | _ => false end.

Definition bridge_event (e : event) : bool :=
  match e with EvRun _ | EvJsonLoads _ => true | _ => false end.

Definition print_event (e : event) : bool :=
  match e with EvPrint _ _ | EvPrintItem _ | EvPrintJson _ _ _ _ _ => true | _ => false end.

(** [for e in v] does not raise on [v]. *)
Definition iterable (v : pyval) : bool :=
  match v with PList _ | PTuple _ | PStr _ | PDict _ => true | _ => false end.

(** The conjunction of the results the mode includes. *)
Definition overall (mode : Mode) (html_ok js_ok : bool) : bool :=
  match mode with
  | ModeHtml => html_ok
  | ModeJs => js_ok
  | ModeAll => html_ok && js_ok
  end.

(** A host on which both files are read: the spec file as [spec], any
    document file as [app_text], parsed as [doc]; the external checker
    completes as [p] with output decoded as [payload]. *)
Definition host_full (doc : node) (spec : Spec) (p : CompletedProcess)
    (payload : string + pyval) : Host :=
  {| fromstring := fun s =>
       match s with EmptyString => inl "Document is empty" | _ => inr doc end;
     subprocess_run := fun argv _ =>
       if bool_decide (argv = ["node"; "--version"])
       then inr probe_run else inr p;
     json_loads := fun _ => payload;
     read_json := fun _ => inr spec;
     read_text := fun _ => inr app_text |}.

(** The same host without a node runtime. *)
Definition host_without_node (doc : node) (spec : Spec) : Host :=
  {| fromstring := fun s =>
       match s with EmptyString => inl "Document is empty" | _ => inr doc end;
     subprocess_run := fun _ _ => inl "[Errno 2] No such file or directory: 'node'";
     json_loads := fun _ => inl "unused";
     read_json := fun _ => inr spec;
     read_text := fun _ => inr app_text |}.

Definition args_in (mode : Mode) (as_json : bool) : Args :=
  {| arg_spec := "app.sfwa-abi.json";
     arg_html := "app.html";
     arg_mode := mode;
     arg_json := as_json;
     arg_node_harness := "sfwa_js_harness.mjs" |}.


(** * Lemmas *)

(** ** The monad *)

Lemma bind_mret {A B} (a : A) (k : A -> M B) : (mret a ≫= k) = k a.
Proof. unfold mbind, M_bind, mret, M_ret. destruct (k a). reflexivity. Qed.

Lemma bind_emit {B} (e : event) (k : unit -> M B) :
  (emit e ≫= k) = (e :: trace (k tt), result (k tt)).
Proof. unfold mbind, M_bind, emit. destruct (k tt). reflexivity. Qed.

Lemma bind_pair {A B} (t : list event) (a : A) (k : A -> M B) :
  ((t, Ret a) ≫= k) = (t ++ trace (k a), result (k a)).
Proof. unfold mbind, M_bind. destruct (k a). reflexivity. Qed.

Lemma result_emit {B} (e : event) (k : unit -> M B) :
  result (emit e ≫= k) = result (k tt).
Proof. rewrite bind_emit. reflexivity. Qed.

Lemma result_mret {A} (a : A) : result (mret a : M A) = Ret a.
Proof. reflexivity. Qed.

Lemma result_bind_Ret {A B} (m : M A) (k : A -> M B) (b : B) :
  result (m ≫= k) = Ret b -> exists a, result m = Ret a /\ result (k a) = Ret b.
Proof.
  destruct m as [t [a | e |]]; unfold mbind, M_bind; simpl.
  - destruct (k a) as [t' o] eqn:E. simpl. intros ->. exists a. rewrite E. auto.
  - discriminate.
  - discriminate.
Qed.

Lemma for_each_app {A S} (l1 l2 : list A) (body : A -> S -> M S) (s : S) :
  for_each (l1 ++ l2) body s = (for_each l1 body s ≫= for_each l2 body).
Proof.
  revert s. induction l1 as [| x l1 IH]; intros s; simpl.
  - symmetry. apply bind_mret.
  - destruct (body x s) as [t [s' | e |]]; unfold mbind, M_bind in *; simpl; auto.
    rewrite IH. destruct (for_each l1 body s') as [t1 [s1 | e1 |]]; auto.
    destruct (for_each l2 body s1) as [t2 o2]. rewrite app_assoc. reflexivity.
Qed.

(** A loop whose every body returns its accumulator unchanged returns it. *)
Lemma for_each_fixed {A S} (l : list A) (body : A -> S -> M S) (s : S) :
  Forall (fun x => result (body x s) = Ret s) l ->
  result (for_each l body s) = Ret s.
Proof.
  induction 1 as [| x l Hx _ IH]; simpl; [reflexivity |].
  destruct (body x s) as [t o]. simpl in Hx. subst o.
  rewrite bind_pair. exact IH.
Qed.

Lemma bind_ext {A B} (m : M A) (k k' : A -> M B) :
  (forall a, k a = k' a) -> (m ≫= k) = (m ≫= k').
Proof.
  intros E. destruct m as [t [a | e |]]; unfold mbind, M_bind; auto.
  rewrite E. reflexivity.
Qed.

(** ** [check_html] after a successful parse: three loops, then assembly *)

Lemma check_html_parsed (H : Host) (spec : Spec) (html_text : string) (doc : node) :
  fromstring H html_text = inr doc ->
  check_html H spec html_text =
    (emit (EvFromstring html_text);;
     a ← for_each (the_ids spec) (ids_step doc) ([], []);
     b ← for_each (the_selectors spec) (selectors_step doc) ([], []);
     c ← for_each (the_data_attrs spec) (data_attrs_step doc) ([], []);
     mret (html_result (the_ids spec) (the_selectors spec) a b c)).
Proof.
  intros Hp. unfold check_html. rewrite Hp.
  apply bind_ext; intros _.
  apply bind_ext; intros [missing dupes].
  apply bind_ext; intros [sel_missing unsupported].
  apply bind_ext; intros [enforced da_missing].
  unfold html_result, html_errors; cbn [fst snd].
  destruct missing, dupes, sel_missing, da_missing; reflexivity.
Qed.

Lemma check_html_unparsed (H : Host) (spec : Spec) (html_text e : string) :
  fromstring H html_text = inl e ->
  check_html H spec html_text =
    ([EvFromstring html_text],
     Ret {| ok := false;
            errors := Py.strs ["HTML parse error: " +:+ e];
            details := PDict [] |}).
Proof. intros Hp. unfold check_html. rewrite Hp. reflexivity. Qed.

(** ** Strings under the lexer *)

Ltac by_cases_on_char c :=
  destruct c as [[] [] [] [] [] [] [] []]; vm_compute; try reflexivity; try discriminate; auto.

Lemma append_cons (c : ascii) (a b : string) : String c a +:+ b = String c (a +:+ b).
Proof. reflexivity. Qed.

Lemma append_nil (b : string) : EmptyString +:+ b = b.
Proof. reflexivity. Qed.

Ltac push_append := rewrite ?append_cons, ?append_nil.

Lemma xml_compatible_app (a b : string) :
  XPath.xml_compatible (a +:+ b) = XPath.xml_compatible a && XPath.xml_compatible b.
Proof.
  induction a as [| c a IH]; simpl; [reflexivity |].
  rewrite IH. apply andb_assoc.
Qed.

Lemma until_app (q : ascii) (v r : string) :
  PyStr.mem q v = false ->
  XPath.until q (v +:+ String q r) = Some (v, r).
Proof.
  induction v as [| c v IH]; simpl.
  - intros _. rewrite Ascii.eqb_refl. reflexivity.
  - rewrite (Ascii.eqb_sym q c). destruct (Ascii.eqb c q); [discriminate |].
    intros Hv. rewrite (IH Hv). reflexivity.
Qed.

Lemma closed_through_literal (q : ascii) (v r : string) :
  PyStr.mem q v = false ->
  XPath.literals_closed (Some q) (v +:+ String q r) = XPath.literals_closed None r.
Proof.
  induction v as [| c v IH]; simpl.
  - intros _. rewrite Ascii.eqb_refl. reflexivity.
  - rewrite (Ascii.eqb_sym q c). destruct (Ascii.eqb c q); [discriminate |].
    exact IH.
Qed.

Lemma name_char_xml (c : ascii) : XPath.name_char c = true -> XPath.xml_char c = true.
Proof. by_cases_on_char c. Qed.

Lemma name_char_no_quote (c : ascii) :
  XPath.name_char c = true ->
  Ascii.eqb c XPath.squote || Ascii.eqb c XPath.dquote = false.
Proof. by_cases_on_char c. Qed.

Lemma name_chars_xml (n : string) :
  all_name_chars n = true -> XPath.xml_compatible n = true.
Proof.
  induction n as [| c n IH]; simpl; [reflexivity |].
  intros [Hc Hn]%andb_prop. rewrite (name_char_xml _ Hc). auto.
Qed.

Lemma closed_over_name (n r : string) :
  all_name_chars n = true ->
  XPath.literals_closed None (n +:+ r) = XPath.literals_closed None r.
Proof.
  induction n as [| c n IH]; simpl; [reflexivity |].
  intros [Hc Hn]%andb_prop. rewrite (name_char_no_quote _ Hc). auto.
Qed.

Lemma span_name_app (n : string) (c : ascii) (r : string) :
  all_name_chars n = true -> XPath.name_char c = false ->
  XPath.span_name (n +:+ String c r) = (n, String c r).
Proof.
  intros Hn Hc. induction n as [| d n IH]; simpl.
  - rewrite Hc. reflexivity.
  - simpl in Hn. apply andb_prop in Hn as [Hd Hn]. rewrite Hd, (IH Hn). reflexivity.
Qed.

Lemma read_name_app (n : string) (c : ascii) (r : string) :
  is_ncname n = true -> XPath.name_char c = false ->
  XPath.read_name (n +:+ String c r) = Some (n, String c r).
Proof.
  destruct n as [| d n]; [discriminate |].
  intros [Hd Hn]%andb_prop Hc.
  change (String d n +:+ String c r) with (String d (n +:+ String c r)).
  unfold XPath.read_name. rewrite Hd.
  change (String d (n +:+ String c r)) with (String d n +:+ String c r).
  rewrite (span_name_app _ _ _ Hn Hc). reflexivity.
Qed.

(** ** The queries the checker builds *)

Lemma eval_parsed (doc : node) (q : string) (e : XPath.expr) :
  XPath.xml_compatible q = true ->
  XPath.literals_closed None q = true ->
  XPath.parse q = Some e ->
  XPath.eval doc q = Ret (XPath.select e doc).
Proof. intros H1 H2 H3. unfold XPath.eval. rewrite H1, H2, H3. reflexivity. Qed.

Lemma literal_safe_parts (v : string) :
  literal_safe v = true ->
  XPath.xml_compatible v = true /\ PyStr.mem XPath.squote v = false.
Proof.
  unfold literal_safe. intros [H1 H2]%andb_prop. split; [exact H1 |].
  destruct (PyStr.mem XPath.squote v); [discriminate | reflexivity].
Qed.

Lemma eval_attr_query (doc : node) (name v : string) :
  is_ncname name = true -> literal_safe v = true ->
  XPath.eval doc (attr_query name v) =
    Ret (List.filter (fun n => bool_decide (attrs_of n !! name = Some v))
           (elements doc)).
Proof.
  intros Hn [Hx Hq]%literal_safe_parts.
  assert (Hall : all_name_chars name = true).
  { destruct name; [discriminate |]. apply andb_prop in Hn as [_ Hn]. exact Hn. }
  rewrite (eval_parsed doc _
             (XPath.Path XPath.AnyName (Some (XPath.Equals (XPath.Attr name) v)))).
  - reflexivity.
  - unfold attr_query. rewrite !xml_compatible_app, Hx, (name_chars_xml _ Hall).
    reflexivity.
  - unfold attr_query. push_append. cbn. rewrite (closed_over_name _ _ Hall).
    push_append. cbn.
    rewrite (closed_through_literal "'"%char v "]" Hq). reflexivity.
  - unfold attr_query. push_append.
    unfold XPath.parse. cbn -[XPath.read_name XPath.until].
    unfold XPath.read_attr. cbn -[XPath.read_name XPath.until].
    rewrite (read_name_app name "="%char (String "'"%char (v +:+ "']")) Hn eq_refl).
    cbn -[XPath.read_name XPath.until].
    rewrite (until_app "'"%char v "]" Hq). reflexivity.
Qed.

Lemma eval_id_query (doc : node) (idv : string) :
  literal_safe idv = true ->
  XPath.eval doc (id_query idv) =
    Ret (List.filter (fun n => bool_decide (attrs_of n !! "id" = Some idv))
           (elements doc)).
Proof. intros Hv. exact (eval_attr_query doc "id" idv eq_refl Hv). Qed.

Lemma eval_title (doc : node) :
  XPath.eval doc "//title" =
    Ret (List.filter (fun n => String.eqb (tag_of n) "title") (elements doc)).
Proof.
  rewrite (eval_parsed doc _ (XPath.Path (XPath.Named "title") None));
    try reflexivity.
  unfold XPath.select. f_equal. apply filter_ext. intros n.
  unfold XPath.matches. simpl. apply andb_true_r.
Qed.

Lemma eval_charset (doc : node) :
  XPath.eval doc "//meta[@charset]" =
    Ret (List.filter (fun n => String.eqb (tag_of n) "meta"
                               && bool_decide (is_Some (attrs_of n !! "charset")))
           (elements doc)).
Proof.
  rewrite (eval_parsed doc _
             (XPath.Path (XPath.Named "meta") (Some (XPath.HasAttr "charset"))));
    reflexivity.
Qed.

Lemma translate_char_lower (c : ascii) :
  XPath.translate_char c "ABCDEFGHIJKLMNOPQRSTUVWXYZ" "abcdefghijklmnopqrstuvwxyz"
  = Some (lower_char c).
Proof. by_cases_on_char c. Qed.

Lemma translate_lower (v : string) :
  XPath.translate v "ABCDEFGHIJKLMNOPQRSTUVWXYZ" "abcdefghijklmnopqrstuvwxyz"
  = lower v.
Proof.
  induction v as [| c v IH]; [reflexivity |].
  cbn [XPath.translate lower]. rewrite translate_char_lower, IH. reflexivity.
Qed.

Lemma eval_viewport (doc : node) :
  XPath.eval doc viewport_query = Ret (List.filter is_viewport_meta (elements doc)).
Proof.
  rewrite (eval_parsed doc _
             (XPath.Path (XPath.Named "meta")
                (Some (XPath.Equals
                         (XPath.Translate "name" "ABCDEFGHIJKLMNOPQRSTUVWXYZ"
                            "abcdefghijklmnopqrstuvwxyz") "viewport"))));
    try reflexivity.
  unfold XPath.select. f_equal. apply filter_ext. intros n.
  unfold XPath.matches, is_viewport_meta, names_viewport. cbn [XPath.test XPath.filter
    XPath.test_ok XPath.holds]. f_equal.
  destruct (attrs_of n !! "name") as [v |]; cbn [default].
  - rewrite translate_lower. reflexivity.
  - reflexivity.
Qed.

Lemma xpath_count_ret (doc : node) (q : string) (l : list node) :
  XPath.eval doc q = Ret l ->
  _xpath_count doc q = ([EvXPath q], Ret (length l)).
Proof. intros E. unfold _xpath_count. rewrite bind_emit, E. reflexivity. Qed.


Lemma count_zero (f : node -> bool) (l : list node) :
  (length (List.filter f l) =? 0)%nat = negb (existsb f l).
Proof.
  induction l as [| x l IH]; simpl; [reflexivity |].
  destruct (f x); simpl; auto.
Qed.

(** ** The loop bodies *)

Lemma ids_step_eval (doc : node) (idv : string) (missing : list string)
    (dupes : list (string * nat)) :
  literal_safe idv = true ->
  ids_step doc idv (missing, dupes) =
    ([EvXPath (id_query idv)],
     Ret (let n := countById doc idv in
          if (n =? 0)%nat then (missing ++ [idv], dupes)
          else if (1 <? n)%nat then (missing, dupes ++ [(idv, n)])
          else (missing, dupes))).
Proof.
  intros Hv. unfold ids_step.
  rewrite (xpath_count_ret _ _ _ (eval_id_query doc idv Hv)), bind_pair.
  fold (countById doc idv). cbn zeta.
  destruct (countById doc idv =? 0)%nat; [reflexivity |].
  destruct (1 <? countById doc idv)%nat; reflexivity.
Qed.

Lemma values_step_eval (doc : node) (name v : string) (enforced da_missing : list string) :
  is_ncname name = true -> literal_safe v = true ->
  values_step doc name v (enforced, da_missing) =
    ([EvXPath (attr_query name v)],
     Ret (if exists_attr_value doc name v
          then (enforced ++ [name +:+ "=" +:+ v], da_missing)
          else (enforced, da_missing ++ [name +:+ "=" +:+ v]))).
Proof.
  intros Hn Hv. unfold values_step.
  rewrite (xpath_count_ret _ _ _ (eval_attr_query doc name v Hn Hv)), bind_pair.
  rewrite count_zero. fold (exists_attr_value doc name v).
  destruct (exists_attr_value doc name v); reflexivity.
Qed.

Lemma selectors_step_eval (doc : node) (sel : string) (sel_missing unsupported : list string) :
  selectors_step doc sel (sel_missing, unsupported) =
    (match selector_target doc sel with
     | Some _ =>
         [EvXPath (if String.eqb (PyStr.strip sel) "title" then "//title"
                   else if String.eqb (PyStr.strip sel) "meta[charset]"
                        then "//meta[@charset]" else viewport_query)]
     | None => []
     end,
     Ret (match selector_target doc sel with
          | Some true => (sel_missing, unsupported)
          | Some false =>
              (sel_missing ++
                 [if String.eqb (PyStr.strip sel) viewport_single
                     || String.eqb (PyStr.strip sel) viewport_double
                  then viewport_single else PyStr.strip sel], unsupported)
          | None => (sel_missing, unsupported ++ [PyStr.strip sel])
          end)).
Proof.
  unfold selectors_step, selector_target. cbn zeta.
  destruct (String.eqb (PyStr.strip sel) "title") eqn:E1.
  { rewrite (xpath_count_ret _ _ _ (eval_title doc)), bind_pair, count_zero.
    apply String.eqb_eq in E1. rewrite E1. fold (exists_tag doc "title").
    destruct (exists_tag doc "title"); reflexivity. }
  destruct (String.eqb (PyStr.strip sel) "meta[charset]") eqn:E2.
  { rewrite (xpath_count_ret _ _ _ (eval_charset doc)), bind_pair, count_zero.
    apply String.eqb_eq in E2. rewrite E2. fold (exists_meta_charset doc).
    destruct (exists_meta_charset doc); reflexivity. }
  destruct (String.eqb (PyStr.strip sel) viewport_single
            || String.eqb (PyStr.strip sel) viewport_double) eqn:E3.
  { rewrite (xpath_count_ret _ _ _ (eval_viewport doc)), bind_pair, count_zero.
    destruct (existsb is_viewport_meta (elements doc)); reflexivity. }
  reflexivity.
Qed.

(** ** Loops *)

(** A loop keeps an invariant that every body keeps, and returns. *)
Lemma for_each_inv {A S} (P : S -> Prop) (l : list A) (body : A -> S -> M S) :
  Forall (fun x => forall s, P s -> exists s', result (body x s) = Ret s' /\ P s') l ->
  forall s, P s -> exists s', result (for_each l body s) = Ret s' /\ P s'.
Proof.
  induction 1 as [| x l Hx _ IH]; intros s Hs; simpl.
  - exists s. split; [reflexivity | exact Hs].
  - destruct (Hx s Hs) as (s1 & E1 & P1).
    destruct (body x s) as [t o]. simpl in E1. subst o.
    rewrite bind_pair. simpl. exact (IH s1 P1).
Qed.

Lemma skipped_step (doc : node) (da : DataAttribute) (acc : list string * list string) :
  skipped da -> data_attrs_step doc da acc = mret acc.
Proof.
  unfold skipped, data_attrs_step.
  destruct da as [[[| c n] |] [[| v vs] |]]; simpl;
    intros [E | [E | [E | E]]]; try discriminate; reflexivity.
Qed.

Lemma enforced_step (doc : node) (da : DataAttribute) (name : string)
    (values : list string) (acc : list string * list string) :
  enforced_entry da = Some (name, values) ->
  data_attrs_step doc da acc = for_each values (values_step doc name) acc.
Proof.
  unfold enforced_entry, data_attrs_step.
  destruct da as [[[| c n] |] [[| v vs] |]]; simpl; try discriminate.
  intros [= <- <-]. reflexivity.
Qed.

Lemma skipped_or_enforced (da : DataAttribute) :
  skipped da \/ exists name values, enforced_entry da = Some (name, values).
Proof.
  unfold skipped, enforced_entry.
  destruct da as [[[| c n] |] [[| v vs] |]]; simpl; eauto 6.
Qed.

Lemma ids_loop_clean (doc : node) (l : list string) (acc : list string * list (string * nat)) :
  Forall (fun idv => literal_safe idv = true) l ->
  Forall (fun idv => countById doc idv = 1) l ->
  result (for_each l (ids_step doc) acc) = Ret acc.
Proof.
  intros Hs Hc. apply for_each_fixed.
  rewrite Forall_forall in *. intros idv Hin. destruct acc as [missing dupes].
  rewrite (ids_step_eval _ _ _ _ (Hs _ Hin)), (Hc _ Hin). reflexivity.
Qed.

Lemma selectors_loop_clean (doc : node) (l : list string) (acc : list string * list string) :
  Forall (fun sel => selector_target doc sel <> Some false) l ->
  fst acc = [] ->
  exists acc', result (for_each l (selectors_step doc) acc) = Ret acc' /\ fst acc' = [].
Proof.
  intros Hl. apply (for_each_inv (fun s => fst s = [])).
  rewrite Forall_forall in *. intros sel Hin [m u] Hm. simpl in Hm. subst m.
  specialize (Hl _ Hin).
  rewrite selectors_step_eval. simpl.
  destruct (selector_target doc sel) as [[|] |]; [| congruence |]; eauto.
Qed.

Lemma values_loop_clean (doc : node) (name : string) (l : list string)
    (acc : list string * list string) :
  is_ncname name = true ->
  Forall (fun v => literal_safe v = true) l ->
  Forall (fun v => exists_attr_value doc name v = true) l ->
  snd acc = [] ->
  exists acc', result (for_each l (values_step doc name) acc) = Ret acc' /\ snd acc' = [].
Proof.
  intros Hn Hs He. apply (for_each_inv (fun s => snd s = [])).
  rewrite Forall_forall in *. intros v Hin [enf mis] Hm. simpl in Hm. subst mis.
  rewrite (values_step_eval _ _ _ _ _ Hn (Hs _ Hin)), (He _ Hin). simpl. eauto.
Qed.

Lemma data_attrs_loop_clean (doc : node) (l : list DataAttribute)
    (acc : list string * list string) :
  Forall (fun da => forall name values,
            enforced_entry da = Some (name, values) ->
            is_ncname name = true /\ Forall (fun v => literal_safe v = true) values) l ->
  Forall (fun da => forall name values,
            enforced_entry da = Some (name, values) ->
            Forall (fun v => exists_attr_value doc name v = true) values) l ->
  snd acc = [] ->
  exists acc', result (for_each l (data_attrs_step doc) acc) = Ret acc' /\ snd acc' = [].
Proof.
  intros Hs He. apply (for_each_inv (fun s => snd s = [])).
  rewrite Forall_forall in *. intros da Hin s Hm.
  destruct (skipped_or_enforced da) as [Hk | (name & values & E)].
  - rewrite (skipped_step _ _ _ Hk). exists s. split; [reflexivity | exact Hm].
  - rewrite (enforced_step _ _ _ _ _ E).
    destruct (Hs _ Hin _ _ E) as [Hn Hv].
    exact (values_loop_clean doc name values s Hn Hv (He _ Hin _ _ E) Hm).
Qed.

(** ** Shape of what [check_html] returns *)

Ltac text_is_there :=
  let E := fresh in cbv beta; intros E; rewrite ?append_cons in E; discriminate E.

Lemma html_errors_nonempty (missing : list string) (dupes : list (string * nat))
    (sel_missing da_missing : list string) :
  Forall (fun s => s <> EmptyString) (html_errors missing dupes sel_missing da_missing).
Proof.
  unfold html_errors.
  repeat (apply Forall_app; split);
    match goal with |- context [if ?b then _ else _] => destruct b end;
    repeat constructor.
  all: text_is_there.
Qed.

Lemma check_html_shape (H : Host) (spec : Spec) (html_text : string) (r : CheckResult) :
  result (check_html H spec html_text) = Ret r ->
  exists errs, ok r = (length errs =? 0)%nat /\ errors r = Py.strs errs
               /\ Forall (fun s => s <> EmptyString) errs.
Proof.
  destruct (fromstring H html_text) as [e | doc] eqn:Hp.
  - rewrite (check_html_unparsed _ _ _ _ Hp). intros [= <-].
    exists ["HTML parse error: " +:+ e]. repeat split.
    repeat constructor. text_is_there.
  - rewrite (check_html_parsed _ _ _ _ Hp), bind_emit. unfold result at 1; simpl snd.
    intros (a & _ & Hb)%result_bind_Ret.
    apply result_bind_Ret in Hb as (b & _ & Hc).
    apply result_bind_Ret in Hc as (c & _ & Hr).
    injection Hr as <-.
    eexists. repeat split. apply html_errors_nonempty.
Qed.

(** On a spec whose strings stay in their places, every loop returns, and
    so does [check_html]. *)
Lemma for_each_returns {A S} (l : list A) (body : A -> S -> M S) (s : S) :
  Forall (fun x => forall s, exists s', result (body x s) = Ret s') l ->
  exists s', result (for_each l body s) = Ret s'.
Proof.
  intros Hl.
  destruct (for_each_inv (fun _ => True) l body) with (s := s) as (s' & E & _);
    [| exact I | eauto].
  rewrite Forall_forall in *. intros x Hin s0 _.
  destruct (Hl x Hin s0) as [s1 E1]. eauto.
Qed.

Lemma check_html_returns (H : Host) (spec : Spec) (html_text : string) :
  splice_safe spec ->
  exists r, result (check_html H spec html_text) = Ret r.
Proof.
  intros [Hsi Hsd].
  destruct (fromstring H html_text) as [e | doc] eqn:Hp.
  { rewrite (check_html_unparsed _ _ _ _ Hp). eauto. }
  rewrite (check_html_parsed _ _ _ _ Hp), result_emit.
  destruct (for_each_returns (the_ids spec) (ids_step doc) ([], [])) as [a Ea].
  { rewrite Forall_forall in *. intros idv Hin [m d].
    rewrite (ids_step_eval _ _ _ _ (Hsi _ Hin)). eauto. }
  destruct (for_each (the_ids spec) (ids_step doc) ([], [])) as [ta oa].
  simpl in Ea. subst oa. rewrite bind_pair. unfold result at 1; simpl snd.
  destruct (for_each_returns (the_selectors spec) (selectors_step doc) ([], []))
    as [b Eb].
  { rewrite Forall_forall. intros sel _ [m u]. rewrite selectors_step_eval. eauto. }
  destruct (for_each (the_selectors spec) (selectors_step doc) ([], [])) as [tb ob].
  simpl in Eb. subst ob. rewrite bind_pair. unfold result at 1; simpl snd.
  destruct (for_each_returns (the_data_attrs spec) (data_attrs_step doc) ([], []))
    as [c Ec].
  { rewrite Forall_forall in *. intros da Hin acc.
    destruct (skipped_or_enforced da) as [Hk | (name & values & E)].
    - rewrite (skipped_step _ _ _ Hk). eauto.
    - rewrite (enforced_step _ _ _ _ _ E).
      destruct (Hsd _ Hin _ _ E) as [Hn Hv].
      apply for_each_returns. rewrite Forall_forall in *. intros v Hv' [en mi].
      rewrite (values_step_eval _ _ _ _ _ Hn (Hv _ Hv')). eauto. }
  destruct (for_each (the_data_attrs spec) (data_attrs_step doc) ([], [])) as [tc oc].
  simpl in Ec. subst oc. rewrite bind_pair. unfold result at 1; simpl snd.
  eauto.
Qed.

(** * The structural checker *)

(** C1, as stated, fails: the page holds the required id ['] exactly once
    and the spec asks for nothing else, yet [check_html] raises out of the
    id query instead of returning a passing result. *)
Lemma quoted_id_counterexample :
  fromstring (host_parsing quote_page) quote_text = inr quote_page /\
  satisfies quote_page quote_spec /\
  check_html (host_parsing quote_page) quote_spec quote_text =
    ([EvFromstring quote_text; EvXPath "//*[@id=''']"], Raise XPathEvalError).
Proof.
  split; [reflexivity |]. split; [| reflexivity].
  split; [repeat constructor |]. split; constructor.
Qed.

(** C1 (amended): for every spec whose ids and data-attribute values are
    XML-compatible strings without a single quote and whose enforced
    data-attribute names are ASCII names, and every parseable document in
    which each required id occurs exactly once, each recognized selector's
    target exists and each required name=value pair is carried by some
    element, [check_html] returns a result with [ok = true] and an empty
    errors list. *)
Theorem satisfied_spec_passes (H : Host) (spec : Spec) (html_text : string) (doc : node) :
  fromstring H html_text = inr doc ->
  splice_safe spec ->
  satisfies doc spec ->
  exists r, result (check_html H spec html_text) = Ret r
            /\ ok r = true /\ errors r = PList [].
Proof.
  intros Hp [Hsi Hsd] (Hi & Hs & Hd).
  rewrite (check_html_parsed _ _ _ _ Hp), bind_emit. unfold result at 1; simpl snd.
  pose proof (ids_loop_clean doc _ ([], []) Hsi Hi) as Ea.
  destruct (for_each (the_ids spec) (ids_step doc) ([], [])) as [ta oa].
  simpl in Ea. subst oa. rewrite bind_pair. unfold result at 1; simpl snd.
  destruct (selectors_loop_clean doc _ ([], []) Hs eq_refl) as ([bm bu] & Eb & Hb).
  destruct (for_each (the_selectors spec) (selectors_step doc) ([], [])) as [tb ob].
  simpl in Eb, Hb. subst ob bm. rewrite bind_pair. unfold result at 1; simpl snd.
  destruct (data_attrs_loop_clean doc _ ([], []) Hsd Hd eq_refl) as ([ce cm] & Ec & Hc).
  destruct (for_each (the_data_attrs spec) (data_attrs_step doc) ([], [])) as [tc oc].
  simpl in Ec, Hc. subst oc cm. rewrite bind_pair. unfold result at 1; simpl snd.
  eexists. split; [reflexivity |]. split; reflexivity.
Qed.

Lemma satisfied_spec_passes_witness :
  fromstring (host_parsing app_page) app_text = inr app_page /\
  splice_safe app_spec /\
  satisfies app_page app_spec /\
  exists r, result (check_html (host_parsing app_page) app_spec app_text) = Ret r
            /\ ok r = true /\ errors r = PList [].
Proof.
  assert (Hs : splice_safe app_spec).
  { split; [repeat constructor |].
    constructor; [| constructor].
    intros name values [= <- <-]. split; [reflexivity | repeat constructor]. }
  assert (Hd : satisfies app_page app_spec).
  { split; [repeat constructor |]. split.
    - constructor; [discriminate | constructor].
    - constructor; [| constructor].
      intros name values [= <- <-]. repeat constructor. }
  split; [reflexivity |]. split; [exact Hs |]. split; [exact Hd |].
  exact (satisfied_spec_passes (host_parsing app_page) app_spec app_text app_page
           eq_refl Hs Hd).
Defined.

(** C2: whatever the spec and the HTML text, a result that [check_html]
    returns has [ok = true] exactly when its errors list is empty; and it
    does return one on every spec whose strings stay in their places in
    the queries. *)
Theorem ok_iff_no_errors (H : Host) (spec : Spec) (html_text : string) :
  (splice_safe spec -> exists r, result (check_html H spec html_text) = Ret r) /\
  forall r, result (check_html H spec html_text) = Ret r ->
            (ok r = true <-> errors r = PList []).
Proof.
  split; [apply check_html_returns |].
  intros r (errs & Hok & Herr & _)%check_html_shape. rewrite Hok, Herr.
  unfold Py.strs. destruct errs; simpl; split; intros; congruence.
Qed.

Lemma ok_iff_no_errors_witness :
  result (check_html (host_parsing app_page) (spec_of ["app"; "main"] [] []) app_text)
    = Ret (html_result ["app"; "main"] [] (["main"], []) ([], []) ([], [])) /\
  (ok (html_result ["app"; "main"] [] (["main"], []) ([], []) ([], [])) = true <->
   errors (html_result ["app"; "main"] [] (["main"], []) ([], []) ([], [])) = PList []).
Proof.
  split; [reflexivity |].
  exact (proj2 (ok_iff_no_errors (host_parsing app_page)
                  (spec_of ["app"; "main"] [] []) app_text) _ eq_refl).
Defined.

(** C7: when the document does not parse, [check_html] returns a failing
    result with exactly one error string and an empty details mapping, and
    no query of the three requirement groups is evaluated: the parse is
    the only step of the run, whatever the spec requires. *)
Theorem parse_failure_short_circuits (H : Host) (spec : Spec) (html_text e : string) :
  fromstring H html_text = inl e ->
  check_html H spec html_text =
    ([EvFromstring html_text],
     Ret {| ok := false;
            errors := PList [PStr ("HTML parse error: " +:+ e)];
            details := PDict [] |}).
Proof. intros Hp. unfold check_html. rewrite Hp. reflexivity. Qed.

Lemma parse_failure_short_circuits_witness :
  fromstring (host_parsing app_page) EmptyString = inl "Document is empty" /\
  check_html (host_parsing app_page) app_spec EmptyString =
    ([EvFromstring EmptyString],
     Ret {| ok := false;
            errors := PList [PStr "HTML parse error: Document is empty"];
            details := PDict [] |}).
Proof.
  split; [reflexivity |].
  exact (parse_failure_short_circuits (host_parsing app_page) app_spec EmptyString
           "Document is empty" eq_refl).
Defined.

(** ** Skipped entries *)

Lemma for_each_skip {A S} (l1 l2 : list A) (x : A) (body : A -> S -> M S) (s : S) :
  (forall s, body x s = mret s) ->
  for_each (l1 ++ x :: l2) body s = for_each (l1 ++ l2) body s.
Proof.
  intros Hx. rewrite !for_each_app. apply bind_ext. intros s1.
  simpl. rewrite Hx. apply bind_mret.
Qed.

(** C9: a data-attribute entry without a name or without values is passed
    over: its loop body returns the lists of enforced and missing pairs as
    it found them and runs no query, and the whole run of [check_html],
    steps and result, is the run on the spec without that entry. *)
Theorem skipped_entry_is_noop (H : Host) (spec : Spec) (html_text : string)
    (before after : list DataAttribute) (da : DataAttribute) :
  skipped da ->
  the_data_attrs spec = before ++ da :: after ->
  (forall doc acc, data_attrs_step doc da acc = ([], Ret acc)) /\
  check_html H spec html_text =
    check_html H (with_data_attrs spec (before ++ after)) html_text.
Proof.
  intros Hk Hspec. split.
  { intros doc acc. exact (skipped_step doc da acc Hk). }
  destruct (fromstring H html_text) as [e | doc] eqn:Hp.
  - rewrite !(check_html_unparsed _ _ _ _ Hp). reflexivity.
  - rewrite !(check_html_parsed _ _ _ _ Hp).
    change (the_ids (with_data_attrs spec (before ++ after))) with (the_ids spec).
    change (the_selectors (with_data_attrs spec (before ++ after)))
      with (the_selectors spec).
    change (the_data_attrs (with_data_attrs spec (before ++ after)))
      with (before ++ after).
    rewrite Hspec.
    rewrite (for_each_skip before after da (data_attrs_step doc) ([], [])
               (fun s => skipped_step doc da s Hk)).
    reflexivity.
Qed.

Lemma skipped_entry_is_noop_witness :
  skipped {| da_name := Some "data-state"; da_values := Some [] |} /\
  (forall doc acc,
     data_attrs_step doc {| da_name := Some "data-state"; da_values := Some [] |} acc
     = ([], Ret acc)) /\
  check_html (host_parsing app_page)
    (spec_of ["app"] ["title"]
       [{| da_name := Some "data-state"; da_values := Some [] |};
        {| da_name := Some "data-role"; da_values := Some ["main"; "aside"] |}])
    app_text =
  check_html (host_parsing app_page)
    (spec_of ["app"] ["title"]
       [{| da_name := Some "data-role"; da_values := Some ["main"; "aside"] |}])
    app_text.
Proof.
  assert (Hk : skipped {| da_name := Some "data-state"; da_values := Some [] |}).
  { right. right. right. reflexivity. }
  split; [exact Hk |].
  exact (skipped_entry_is_noop (host_parsing app_page)
           (spec_of ["app"] ["title"]
              [{| da_name := Some "data-state"; da_values := Some [] |};
               {| da_name := Some "data-role"; da_values := Some ["main"; "aside"] |}])
           app_text []
           [{| da_name := Some "data-role"; da_values := Some ["main"; "aside"] |}]
           _ Hk eq_refl).
Defined.

(** ** Quotes in spliced strings *)






Lemma bind_raise {A B} (t : list event) (e : exn) (k : A -> M B) :
  ((t, Raise e) ≫= k) = (t, Raise e).
Proof. reflexivity. Qed.





(** ** The viewport selector *)

Lemma selector_target_viewport (doc : node) (sel : string) :
  PyStr.strip sel = viewport_single \/ PyStr.strip sel = viewport_double ->
  selector_target doc sel = Some (existsb is_viewport_meta (elements doc)).
Proof. unfold selector_target. intros [-> | ->]; reflexivity. Qed.

(** C8, as stated, fails: an element that is not a [meta] carries the name
    [viewport], so some element carries such a name attribute, and yet the
    requirement is reported as missing. *)
Lemma viewport_div_counterexample :
  existsb names_viewport (elements named_div_page) = true /\
  verdict (check_html (host_parsing named_div_page)
             (spec_of [] [viewport_single] []) named_div_text)
  = Some (false, PList [PStr "Missing required selector(s): meta[name='viewport']"]).
Proof. split; reflexivity. Qed.

(** C8 (amended): a selector that reads, once stripped, as the viewport
    selector in either quoting style is recognized; it is met exactly when
    some [meta] element carries a [name] attribute whose value, with its
    ASCII letters lower-cased, is [viewport]; when unmet it goes into the
    missing list under the single-quoted spelling, whichever style was
    asked for. *)
Theorem viewport_selector_policy (H : Host) (html_text : string) (doc : node)
    (sel : string) (sel_missing unsupported : list string) :
  fromstring H html_text = inr doc ->
  PyStr.strip sel = viewport_single \/ PyStr.strip sel = viewport_double ->
  selectors_step doc sel (sel_missing, unsupported) =
    ([EvXPath viewport_query],
     Ret (if existsb is_viewport_meta (elements doc)
          then (sel_missing, unsupported)
          else (sel_missing ++ [viewport_single], unsupported))) /\
  verdict (check_html H (spec_of [] [sel] []) html_text) =
    Some (if existsb is_viewport_meta (elements doc)
          then (true, PList [])
          else (false,
                PList [PStr "Missing required selector(s): meta[name='viewport']"])).
Proof.
  intros Hp Hsel.
  assert (Hstep : forall m u,
    selectors_step doc sel (m, u) =
      ([EvXPath viewport_query],
       Ret (if existsb is_viewport_meta (elements doc)
            then (m, u) else (m ++ [viewport_single], u)))).
  { intros m u. rewrite selectors_step_eval, (selector_target_viewport _ _ Hsel).
    destruct Hsel as [-> | ->];
      destruct (existsb is_viewport_meta (elements doc)); reflexivity. }
  split; [apply Hstep |].
  unfold verdict. rewrite (check_html_parsed _ _ _ _ Hp), bind_emit.
  change (the_ids (spec_of [] [sel] [])) with (@nil string).
  change (the_selectors (spec_of [] [sel] [])) with [sel].
  change (the_data_attrs (spec_of [] [sel] [])) with (@nil DataAttribute).
  cbn [for_each]. rewrite bind_mret, Hstep.
  destruct (existsb is_viewport_meta (elements doc)); reflexivity.
Qed.

Lemma viewport_selector_policy_witness :
  fromstring (host_parsing viewport_page) viewport_text = inr viewport_page /\
  (PyStr.strip (" " +:+ viewport_double) = viewport_single \/
   PyStr.strip (" " +:+ viewport_double) = viewport_double) /\
  selectors_step viewport_page (" " +:+ viewport_double) ([], []) =
    ([EvXPath viewport_query], Ret ([], [])) /\
  verdict (check_html (host_parsing viewport_page)
             (spec_of [] [" " +:+ viewport_double] []) viewport_text)
  = Some (true, PList []).
Proof.
  split; [reflexivity |]. split; [right; reflexivity |].
  exact (viewport_selector_policy (host_parsing viewport_page) viewport_text
           viewport_page (" " +:+ viewport_double) [] [] eq_refl
           (or_intror eq_refl)).
Defined.

(** * The external runtime bridge *)

Lemma check_js_completed (H : Host) (spec_path html_path node_script_path : string)
    (probe p : CompletedProcess) :
  subprocess_run H ["node"; "--version"] true = inr probe ->
  subprocess_run H (checker_argv spec_path html_path node_script_path) false = inr p ->
  check_js H spec_path html_path node_script_path =
    (emit (EvRun ["node"; "--version"]);;
     emit (EvRun (checker_argv spec_path html_path node_script_path));;
     if (returncode p =? 2)%Z then
       mret {| ok := false;
               errors := Py.strs ["JS harness internal error:" +:+ newline
                                    +:+ PyStr.or_else (stderr p) (stdout p)];
               details := PDict [] |}
     else if negb (PyStr.truthy (PyStr.strip (stdout p))) then
       mret {| ok := false;
               errors := Py.strs ["JS harness produced no output.";
                                  PyStr.strip (stderr p)];
               details := PDict [] |}
     else
       emit (EvJsonLoads (stdout p));;
       match json_loads H (stdout p) with
       | inl e =>
           mret {| ok := false;
                   errors := Py.strs ["JS harness output was not valid JSON: " +:+ e;
                                      PyStr.prefix 4000 (stdout p)];
                   details := PDict [("stderr", PStr (stderr p))] |}
       | inr payload => payload_result (stderr p) payload
       end).
Proof.
  intros Hprobe Hrun. unfold check_js, checker_argv in *. rewrite Hprobe, Hrun.
  apply bind_ext; intros _. apply bind_ext; intros _.
  destruct (returncode p =? 2)%Z; [reflexivity |].
  destruct (negb (PyStr.truthy (PyStr.strip (stdout p)))); [reflexivity |].
  apply bind_ext; intros _.
  destruct (json_loads H (stdout p)) as [e | payload]; [reflexivity |].
  unfold payload_result.
  apply bind_ext; intros ok_field. apply bind_ext; intros errors_field.
  apply bind_ext; intros details_field. reflexivity.
Qed.

(** Storing the standard error text under [details]: it goes into a dict,
    and raises on a truthy value of another kind. *)
Lemma details_store (field : option pyval) (text : string) :
  let det := Py.or_else (default PNone field) (PDict []) in
  (exists dd, py_setitem det "stderr" (PStr text) = mret (PDict dd)) \/
  (py_setitem det "stderr" (PStr text) = raise TypeError /\
   exists v, field = Some v /\ Py.truthy v = true /\ forall d', v <> PDict d').
Proof.
  cbn zeta. unfold Py.or_else.
  destruct field as [v |]; [| left; eexists; reflexivity].
  change (default PNone (Some v)) with v.
  destruct (Py.truthy v) eqn:Ev; [| left; eexists; reflexivity].
  destruct v; try (left; eexists; reflexivity);
    right; (split; [reflexivity |]); eexists; (split; [reflexivity |]);
    (split; [exact Ev | discriminate]).
Qed.

(** What a dict payload becomes. *)
Lemma payload_result_dict (stderr_text : string) (d : list (string * pyval)) :
  let field k := default PNone (Py.assoc k d) in
  payload_result stderr_text (PDict d) =
    (details ←
       (if PyStr.truthy (PyStr.strip stderr_text)
        then py_setitem (Py.or_else (field "details") (PDict [])) "stderr"
               (PStr (PyStr.strip stderr_text))
        else mret (Py.or_else (field "details") (PDict [])));
     mret {| ok := Py.truthy (field "ok");
             errors := Py.or_else (field "errors")
                         (if Py.truthy (field "ok") then PList []
                          else Py.strs ["JS compliance failed."]);
             details := details |}).
Proof. cbn zeta. unfold payload_result, py_get. rewrite !bind_mret. reflexivity. Qed.

(** C5: when the external checker exits with the sentinel code 2,
    [check_js] returns a failing result whose single error is the
    internal-error banner followed by the captured standard error, or by
    standard output when standard error is empty; the run consists of the
    two subprocess calls only, so standard output is never decoded. *)
Theorem sentinel_exit_reports_diagnostics (H : Host)
    (spec_path html_path node_script_path : string) (probe p : CompletedProcess) :
  subprocess_run H ["node"; "--version"] true = inr probe ->
  subprocess_run H (checker_argv spec_path html_path node_script_path) false = inr p ->
  returncode p = 2%Z ->
  check_js H spec_path html_path node_script_path =
    ([EvRun ["node"; "--version"];
      EvRun (checker_argv spec_path html_path node_script_path)],
     Ret {| ok := false;
            errors := PList [PStr ("JS harness internal error:" +:+ newline +:+
                                   match stderr p with
                                   | EmptyString => stdout p
                                   | _ => stderr p
                                   end)];
            details := PDict [] |}).
Proof.
  intros Hprobe Hrun Hcode.
  rewrite (check_js_completed _ _ _ _ _ _ Hprobe Hrun), Hcode, !bind_emit.
  cbn [Z.eqb Pos.eqb trace result fst snd mret M_ret].
  unfold PyStr.or_else, PyStr.truthy. destruct (stderr p); reflexivity.
Qed.

Lemma sentinel_exit_reports_diagnostics_witness :
  returncode crashed_run = 2%Z /\
  check_js (host_running crashed_run (inl "unused") (inl "unused"))
    "app.sfwa-abi.json" "app.html" "sfwa_js_harness.mjs" =
    ([EvRun ["node"; "--version"];
      EvRun (checker_argv "app.sfwa-abi.json" "app.html" "sfwa_js_harness.mjs")],
     Ret {| ok := false;
            errors := PList [PStr ("JS harness internal error:" +:+ newline +:+
                                   "Error: cannot load jsdom")];
            details := PDict [] |}).
Proof.
  split; [reflexivity |].
  exact (sentinel_exit_reports_diagnostics
           (host_running crashed_run (inl "unused") (inl "unused"))
           "app.sfwa-abi.json" "app.html" "sfwa_js_harness.mjs"
           {| returncode := 0; stdout := "v18.19.0" +:+ newline; stderr := EmptyString |}
           crashed_run eq_refl eq_refl eq_refl).
Defined.

(** ** The decoded payload *)

(** C4, as stated, fails: the payload holds an [errors] field, the empty
    list, next to [ok] false, and the result does not carry that field
    verbatim but the synthesized error. *)
Lemma empty_errors_counterexample :
  Py.assoc "errors" [("ok", PBool false); ("errors", PList [])] = Some (PList []) /\
  verdict (check_js (host_running empty_errors_run (inr empty_errors_payload)
                       (inl "unused"))
             "app.sfwa-abi.json" "app.html" "sfwa_js_harness.mjs")
  = Some (false, PList [PStr "JS compliance failed."]).
Proof. split; reflexivity. Qed.

(** C4 (amended): when standard output decodes to a JSON object,
    [check_js] takes the [errors] field verbatim if it is present and
    truthy (a non-empty list); if the field is absent, null or empty and
    [ok] is false, the errors list is exactly the one synthesized string;
    if it is absent, null or empty and [ok] is true, the errors list is
    empty.  The call returns, unless the payload's [details] is a truthy
    value other than a dict and standard error has text, where storing the
    text raises. *)
Theorem payload_errors_policy (H : Host)
    (spec_path html_path node_script_path : string) (probe p : CompletedProcess)
    (d : list (string * pyval)) :
  subprocess_run H ["node"; "--version"] true = inr probe ->
  subprocess_run H (checker_argv spec_path html_path node_script_path) false = inr p ->
  returncode p <> 2%Z ->
  PyStr.strip (stdout p) <> EmptyString ->
  json_loads H (stdout p) = inr (PDict d) ->
  match result (check_js H spec_path html_path node_script_path) with
  | Ret r =>
      ok r = Py.truthy (default PNone (Py.assoc "ok" d)) /\
      errors r =
        match Py.assoc "errors" d with
        | Some e =>
            if Py.truthy e then e
            else if ok r then PList [] else PList [PStr "JS compliance failed."]
        | None => if ok r then PList [] else PList [PStr "JS compliance failed."]
        end
  | Raise e =>
      e = TypeError /\ PyStr.strip (stderr p) <> EmptyString /\
      exists v, Py.assoc "details" d = Some v /\ Py.truthy v = true /\
                forall d', v <> PDict d'
  | Beyond => False
  end.
Proof.
  intros Hprobe Hrun Hcode Hout Hload.
  rewrite (check_js_completed _ _ _ _ _ _ Hprobe Hrun), !result_emit.
  apply Z.eqb_neq in Hcode. rewrite Hcode.
  destruct (PyStr.strip (stdout p)) as [| c s] eqn:Es; [congruence |].
  cbn [PyStr.truthy negb]. rewrite result_emit, Hload, payload_result_dict.
  cbn zeta.
  assert (Herrors : forall okv : bool,
    Py.or_else (default PNone (Py.assoc "errors" d))
      (if okv then PList [] else Py.strs ["JS compliance failed."]) =
    match Py.assoc "errors" d with
    | Some e => if Py.truthy e then e
                else if okv then PList [] else PList [PStr "JS compliance failed."]
    | None => if okv then PList [] else PList [PStr "JS compliance failed."]
    end).
  { intros okv. unfold Py.or_else. destruct (Py.assoc "errors" d) as [e |]; reflexivity. }
  destruct (PyStr.truthy (PyStr.strip (stderr p))) eqn:Et.
  - destruct (details_store (Py.assoc "details" d) (PyStr.strip (stderr p)))
      as [[dd Hs] | [Hs Hv]]; cbn zeta in Hs; rewrite Hs.
    + rewrite bind_mret, result_mret. cbn [ok errors].
      split; [reflexivity | apply Herrors].
    + unfold raise. rewrite bind_raise. cbn [result snd].
      split; [reflexivity |]. split; [| exact Hv].
      intros E. rewrite E in Et. discriminate.
  - rewrite bind_mret, result_mret. cbn [ok errors].
    split; [reflexivity | apply Herrors].
Qed.

Lemma payload_errors_policy_witness :
  returncode bare_failure_run <> 2%Z /\
  PyStr.strip (stdout bare_failure_run) <> EmptyString /\
  match result (check_js (host_running bare_failure_run (inr bare_failure_payload)
                            (inl "unused"))
                  "app.sfwa-abi.json" "app.html" "sfwa_js_harness.mjs") with
  | Ret r =>
      ok r = false /\
      errors r = (if ok r then PList [] else PList [PStr "JS compliance failed."])
  | Raise e =>
      e = TypeError /\ PyStr.strip (stderr bare_failure_run) <> EmptyString /\
      exists v, @None pyval = Some v /\ Py.truthy v = true /\ forall d', v <> PDict d'
  | Beyond => False
  end.
Proof.
  assert (Hcode : returncode bare_failure_run <> 2%Z) by discriminate.
  assert (Hout : PyStr.strip (stdout bare_failure_run) <> EmptyString) by discriminate.
  split; [exact Hcode |]. split; [exact Hout |].
  exact (payload_errors_policy
           (host_running bare_failure_run (inr bare_failure_payload) (inl "unused"))
           "app.sfwa-abi.json" "app.html" "sfwa_js_harness.mjs"
           {| returncode := 0; stdout := "v18.19.0" +:+ newline; stderr := EmptyString |}
           bare_failure_run [("ok", PBool false)] eq_refl eq_refl Hcode Hout eq_refl).
Defined.

(** ** Failing results and their errors *)

Lemma check_js_no_node (H : Host) (spec_path html_path node_script_path e : string) :
  subprocess_run H ["node"; "--version"] true = inl e ->
  check_js H spec_path html_path node_script_path =
    ([EvRun ["node"; "--version"]],
     Ret {| ok := false;
            errors := Py.strs ["Node.js not available: " +:+ e];
            details := PDict [] |}).
Proof. intros E. unfold check_js. rewrite E. reflexivity. Qed.

Lemma check_js_no_launch (H : Host) (spec_path html_path node_script_path e : string)
    (probe : CompletedProcess) :
  subprocess_run H ["node"; "--version"] true = inr probe ->
  subprocess_run H (checker_argv spec_path html_path node_script_path) false = inl e ->
  check_js H spec_path html_path node_script_path =
    ([EvRun ["node"; "--version"];
      EvRun (checker_argv spec_path html_path node_script_path)],
     Ret {| ok := false;
            errors := Py.strs ["Failed to execute JS harness: " +:+ e];
            details := PDict [] |}).
Proof.
  intros E1 E2. unfold check_js, checker_argv in *. rewrite E1, E2. reflexivity.
Qed.

Lemma payload_result_ret (stderr_text : string) (payload : pyval) (r : CheckResult) :
  result (payload_result stderr_text payload) = Ret r ->
  exists d, payload = PDict d /\
    ok r = Py.truthy (default PNone (Py.assoc "ok" d)) /\
    errors r = Py.or_else (default PNone (Py.assoc "errors" d))
                 (if ok r then PList [] else Py.strs ["JS compliance failed."]).
Proof.
  destruct payload as [| b | z | f | s | l | l | d]; try discriminate.
  rewrite payload_result_dict. cbn zeta.
  intros (det & _ & Hr)%result_bind_Ret. rewrite result_mret in Hr.
  injection Hr as <-. exists d. repeat split.
Qed.

Lemma first_error_explains (s : string) (rest : list string) :
  s <> EmptyString ->
  Py.truthy (Py.strs (s :: rest)) = true /\ has_nonempty_string (Py.strs (s :: rest)).
Proof.
  intros Hs. split; [reflexivity |].
  exists (map PStr (s :: rest)), s. repeat split; [left; reflexivity | exact Hs].
Qed.

(** C6, as stated, fails: the external checker reports failure and
    supplies one error that is the empty string; the result has
    [ok = false] and no non-empty error string. *)
Lemma blank_error_counterexample :
  verdict (check_js (host_running blank_error_run (inr blank_error_payload)
                       (inl "unused"))
             "app.sfwa-abi.json" "app.html" "sfwa_js_harness.mjs")
  = Some (false, PList [PStr EmptyString]) /\
  ~ has_nonempty_string (PList [PStr EmptyString]).
Proof.
  split; [reflexivity |].
  intros (l & s & [= <-] & [[= <-] | []] & Hs). apply Hs. reflexivity.
Qed.

(** C6 (amended): a result with [ok = false] that either checker returns
    has a non-empty errors value.  On every failure path that words its
    own errors (structural groups, document parse failure, runtime
    unavailable, launch failure, sentinel exit code, empty output,
    unparseable output, failure reported without errors) one of them is a
    non-empty string; errors that the payload of the external checker
    supplies are passed on as they are. *)
Theorem failing_results_carry_errors (H : Host) (spec : Spec) (html_text : string)
    (spec_path html_path node_script_path : string) (r : CheckResult) :
  result (check_html H spec html_text) = Ret r \/
  result (check_js H spec_path html_path node_script_path) = Ret r ->
  ok r = false ->
  Py.truthy (errors r) = true /\
  (has_nonempty_string (errors r) \/
   exists p d,
     subprocess_run H (checker_argv spec_path html_path node_script_path) false = inr p /\
     json_loads H (stdout p) = inr (PDict d) /\
     Py.assoc "errors" d = Some (errors r)).
Proof.
  intros [Hh | Hj] Hok.
  - apply check_html_shape in Hh as (errs & Hk & He & Hne).
    rewrite He. rewrite Hk in Hok. destruct errs as [| s rest]; [discriminate |].
    apply Forall_inv in Hne.
    destruct (first_error_explains s rest Hne) as [Ht Hx]. auto.
  - destruct (subprocess_run H ["node"; "--version"] true) as [e | probe] eqn:E1.
    { rewrite (check_js_no_node _ _ _ _ _ E1) in Hj. injection Hj as <-.
      destruct (first_error_explains ("Node.js not available: " +:+ e) []) as [Ht Hx];
        [text_is_there | auto]. }
    destruct (subprocess_run H (checker_argv spec_path html_path node_script_path) false)
      as [e | p] eqn:E2.
    { rewrite (check_js_no_launch _ _ _ _ _ _ E1 E2) in Hj. injection Hj as <-.
      destruct (first_error_explains ("Failed to execute JS harness: " +:+ e) [])
        as [Ht Hx]; [text_is_there | auto]. }
    rewrite (check_js_completed _ _ _ _ _ _ E1 E2), !result_emit in Hj.
    destruct (returncode p =? 2)%Z.
    { rewrite result_mret in Hj. injection Hj as <-.
      destruct (first_error_explains
                  ("JS harness internal error:" +:+ newline
                     +:+ PyStr.or_else (stderr p) (stdout p)) [])
        as [Ht Hx]; [text_is_there | auto]. }
    destruct (negb (PyStr.truthy (PyStr.strip (stdout p)))).
    { rewrite result_mret in Hj. injection Hj as <-.
      destruct (first_error_explains "JS harness produced no output."
                  [PyStr.strip (stderr p)]) as [Ht Hx]; [discriminate | auto]. }
    rewrite result_emit in Hj.
    destruct (json_loads H (stdout p)) as [e | payload] eqn:E3.
    { rewrite result_mret in Hj. injection Hj as <-.
      destruct (first_error_explains ("JS harness output was not valid JSON: " +:+ e)
                  [PyStr.prefix 4000 (stdout p)]) as [Ht Hx]; [text_is_there | auto]. }
    apply payload_result_ret in Hj as (d & -> & _ & He).
    rewrite Hok in He. rewrite He. unfold Py.or_else.
    destruct (Py.assoc "errors" d) as [v |] eqn:Ev.
    + change (default PNone (Some v)) with v.
      destruct (Py.truthy v) eqn:Et.
      * split; [exact Et |]. right. exists p, d. auto.
      * destruct (first_error_explains "JS compliance failed." []) as [Ht Hx];
          [discriminate | auto].
    + destruct (first_error_explains "JS compliance failed." []) as [Ht Hx];
        [discriminate | auto].
Qed.

Lemma failing_results_carry_errors_witness :
  (result (check_html (host_running bare_failure_run (inr bare_failure_payload)
                         (inl "unused")) app_spec app_text)
     = Ret {| ok := false;
              errors := PList [PStr "JS compliance failed."];
              details := PDict [("stderr", PStr "warning: slow")] |} \/
   result (check_js (host_running bare_failure_run (inr bare_failure_payload)
                       (inl "unused"))
             "app.sfwa-abi.json" "app.html" "sfwa_js_harness.mjs")
     = Ret {| ok := false;
              errors := PList [PStr "JS compliance failed."];
              details := PDict [("stderr", PStr "warning: slow")] |}) /\
  Py.truthy (PList [PStr "JS compliance failed."]) = true /\
  (has_nonempty_string (PList [PStr "JS compliance failed."]) \/
   exists p d,
     subprocess_run (host_running bare_failure_run (inr bare_failure_payload)
                       (inl "unused"))
       (checker_argv "app.sfwa-abi.json" "app.html" "sfwa_js_harness.mjs") false = inr p /\
     json_loads (host_running bare_failure_run (inr bare_failure_payload)
                   (inl "unused")) (stdout p) = inr (PDict d) /\
     Py.assoc "errors" d = Some (PList [PStr "JS compliance failed."])).
Proof.
  split; [right; reflexivity |].
  exact (failing_results_carry_errors
           (host_running bare_failure_run (inr bare_failure_payload) (inl "unused"))
           app_spec app_text "app.sfwa-abi.json" "app.html" "sfwa_js_harness.mjs"
           {| ok := false;
              errors := PList [PStr "JS compliance failed."];
              details := PDict [("stderr", PStr "warning: slow")] |}
           (or_intror eq_refl) eq_refl).
Defined.

(** * The orchestrator *)

Lemma bind_emit_mret {A B} (e : event) (a : A) (k : A -> M B) :
  ((emit e;; mret a) ≫= k) = (e :: trace (k a), result (k a)).
Proof. unfold mbind, M_bind, emit, mret, M_ret. destruct (k a). reflexivity. Qed.

(** A checker that runs leaves its first step in the trace. *)
Lemma check_html_first_step (H : Host) (spec : Spec) (html_text : string) :
  exists t, trace (check_html H spec html_text) = EvFromstring html_text :: t.
Proof. unfold check_html. rewrite bind_emit. eexists. reflexivity. Qed.

Lemma check_js_first_step (H : Host) (spec_path html_path node_script_path : string) :
  exists t, trace (check_js H spec_path html_path node_script_path)
            = EvRun ["node"; "--version"] :: t.
Proof. unfold check_js. rewrite bind_emit. eexists. reflexivity. Qed.

(** C3: when the spec's [abi] is not [sfwa-abi-1], [main] reads the spec,
    prints the configuration error on standard error and exits with code
    2.  The run has these two steps only: the document is not read, and
    neither [check_html] nor [check_js] is called, whatever the document
    and the mode. *)
Theorem unsupported_abi_aborts (H : Host) (args : Args) (spec : Spec) :
  read_json H (arg_spec args) = inr spec ->
  abi spec <> Some "sfwa-abi-1" ->
  main H args =
    ([EvReadJson (arg_spec args);
      EvPrint Stderr ("Error: unsupported abi '" +:+ PyStr.of_option (abi spec)
                        +:+ "'. Expected 'sfwa-abi-1'.")],
     Raise (SystemExit 2)) /\
  Forall (fun e => checker_event e = false) (trace (main H args)).
Proof.
  intros Hread Habi.
  assert (E : main H args =
    ([EvReadJson (arg_spec args);
      EvPrint Stderr ("Error: unsupported abi '" +:+ PyStr.of_option (abi spec)
                        +:+ "'. Expected 'sfwa-abi-1'.")],
     Raise (SystemExit 2))).
  { unfold main, _read_json. rewrite Hread, bind_emit_mret.
    rewrite bool_decide_eq_false_2 by exact Habi. reflexivity. }
  split; [exact E |]. rewrite E. repeat constructor.
Qed.

Lemma unsupported_abi_aborts_witness :
  read_json (host_running crashed_run (inl "unused") (inr other_dialect_spec))
    (arg_spec demo_args) = inr other_dialect_spec /\
  abi other_dialect_spec <> Some "sfwa-abi-1" /\
  main (host_running crashed_run (inl "unused") (inr other_dialect_spec)) demo_args =
    ([EvReadJson "app.sfwa-abi.json";
      EvPrint Stderr "Error: unsupported abi 'sfwa-abi-2'. Expected 'sfwa-abi-1'."],
     Raise (SystemExit 2)) /\
  Forall (fun e => checker_event e = false)
    (trace (main (host_running crashed_run (inl "unused") (inr other_dialect_spec))
              demo_args)).
Proof.
  assert (Habi : abi other_dialect_spec <> Some "sfwa-abi-1") by discriminate.
  split; [reflexivity |]. split; [exact Habi |].
  exact (unsupported_abi_aborts
           (host_running crashed_run (inl "unused") (inr other_dialect_spec))
           demo_args other_dialect_spec eq_refl Habi).
Defined.

(** * Beyond the claims: the report of [check_html] *)

Lemma ids_loop_run (doc : node) (l : list string) :
  Forall (fun idv => literal_safe idv = true) l ->
  forall missing dupes,
    for_each l (ids_step doc) (missing, dupes) =
      (map (fun idv => EvXPath (id_query idv)) l,
       Ret (missing ++ missing_ids doc l, dupes ++ duplicate_ids doc l)).
Proof.
  induction 1 as [| idv l Hv _ IH]; intros missing dupes.
  - cbn [for_each map]. unfold missing_ids, duplicate_ids. cbn [List.filter map].
    rewrite !app_nil_r. reflexivity.
  - cbn [for_each]. rewrite (ids_step_eval _ _ _ _ Hv), bind_pair. cbn zeta.
    unfold missing_ids, duplicate_ids in *. cbn [List.filter map].
    destruct (countById doc idv =? 0)%nat eqn:E0.
    + apply Nat.eqb_eq in E0. rewrite E0. cbn [Nat.ltb Nat.leb].
      rewrite IH. cbn [trace result fst snd app]. rewrite <- app_assoc. reflexivity.
    + destruct (1 <? countById doc idv)%nat eqn:E1.
      * rewrite IH. cbn [trace result fst snd app map]. rewrite <- app_assoc.
        reflexivity.
      * rewrite IH. reflexivity.
Qed.

Lemma selectors_loop_run (doc : node) (l : list string) :
  forall sel_missing unsupported,
    for_each l (selectors_step doc) (sel_missing, unsupported) =
      (selector_events doc l,
       Ret (sel_missing ++ missing_selectors doc l,
            unsupported ++ unsupported_selectors doc l)).
Proof.
  induction l as [| sel l IH]; intros sel_missing unsupported.
  - cbn. rewrite !app_nil_r. reflexivity.
  - cbn [for_each]. rewrite selectors_step_eval, bind_pair.
    unfold selector_events, missing_selectors, unsupported_selectors in *.
    cbn [List.flat_map]. fold (selector_query sel). fold (reported_selector sel).
    destruct (selector_target doc sel) as [[|] |]; rewrite IH;
      cbn [trace result fst snd app]; rewrite <- ?app_assoc, ?app_nil_r; reflexivity.
Qed.

Lemma values_loop_run (doc : node) (name : string) (l : list string) :
  is_ncname name = true ->
  Forall (fun v => literal_safe v = true) l ->
  forall enforced da_missing,
    for_each l (values_step doc name) (enforced, da_missing) =
      (map (fun nv => EvXPath (attr_query (fst nv) (snd nv))) (map (pair name) l),
       Ret (enforced ++ map pair_text (List.filter (pair_present doc) (map (pair name) l)),
            da_missing ++ map pair_text
                            (List.filter (fun nv => negb (pair_present doc nv))
                               (map (pair name) l)))).
Proof.
  intros Hn. induction 1 as [| v l Hv _ IH]; intros enforced da_missing.
  - cbn. rewrite !app_nil_r. reflexivity.
  - cbn [for_each]. rewrite (values_step_eval _ _ _ _ _ Hn Hv), bind_pair.
    cbn [map List.filter].
    change (pair_present doc (name, v)) with (exists_attr_value doc name v).
    destruct (exists_attr_value doc name v); rewrite IH;
      cbn [trace result fst snd app negb map]; rewrite <- ?app_assoc; reflexivity.
Qed.

Lemma data_attrs_loop_run (doc : node) (l : list DataAttribute) :
  Forall (fun da => forall name values,
            enforced_entry da = Some (name, values) ->
            is_ncname name = true /\ Forall (fun v => literal_safe v = true) values) l ->
  forall enforced da_missing,
    for_each l (data_attrs_step doc) (enforced, da_missing) =
      (map (fun nv => EvXPath (attr_query (fst nv) (snd nv))) (required_pairs l),
       Ret (enforced ++ enforced_pairs doc l, da_missing ++ missing_pairs doc l)).
Proof.
  induction 1 as [| da l Hda _ IH]; intros enforced da_missing.
  - cbn. rewrite !app_nil_r. reflexivity.
  - cbn [for_each]. unfold enforced_pairs, missing_pairs, required_pairs in *.
    cbn [List.flat_map].
    destruct (skipped_or_enforced da) as [Hk | (name & values & E)].
    + rewrite (skipped_step _ _ _ Hk), bind_mret.
      assert (En : enforced_entry da = None).
      { unfold skipped, enforced_entry in *.
        destruct da as [[[| c n] |] [[| v vs] |]]; simpl in *;
          destruct Hk as [? | [? | [? | ?]]]; try discriminate; reflexivity. }
      rewrite En. cbn [app]. apply IH.
    + rewrite (enforced_step _ _ _ _ _ E), E.
      destruct (Hda _ _ E) as [Hn Hv].
      rewrite (values_loop_run doc name values Hn Hv), bind_pair, IH.
      cbn [trace result fst snd].
      rewrite !List.filter_app, !List.map_app, <- !List.app_assoc. reflexivity.
Qed.

Lemma check_html_safe_run (H : Host) (spec : Spec) (html_text : string) (doc : node) :
  fromstring H html_text = inr doc ->
  splice_safe spec ->
  check_html H spec html_text =
    (EvFromstring html_text :: expected_queries doc spec, Ret (expected_report doc spec)).
Proof.
  intros Hp [Hsi Hsd].
  rewrite (check_html_parsed _ _ _ _ Hp), bind_emit.
  rewrite (ids_loop_run doc _ Hsi), bind_pair.
  rewrite selectors_loop_run, bind_pair.
  rewrite (data_attrs_loop_run doc _ Hsd), bind_pair.
  unfold trace, result. cbn [fst snd mret M_ret app]. rewrite app_nil_r.
  reflexivity.
Qed.

(** X1: on a parsed document and a spec whose strings are safe to splice,
    [check_html] runs one query per required id, then one per recognized
    selector, then one per enforced name=value pair, whatever the earlier
    groups found, and returns the report the document determines: the
    missing and duplicated ids, the missing and unsupported selectors, the
    enforced and missing pairs, each in spec order. *)
Theorem check_html_report (H : Host) (spec : Spec) (html_text : string) (doc : node) :
  fromstring H html_text = inr doc ->
  splice_safe spec ->
  check_html H spec html_text =
    (EvFromstring html_text :: expected_queries doc spec, Ret (expected_report doc spec)).
Proof. intros Hp Hs. exact (check_html_safe_run H spec html_text doc Hp Hs). Qed.

Lemma crowded_spec_safe :
  splice_safe (spec_of ["app"; "main"] ["title"; "nav > a"] []).
Proof. split; repeat constructor. Qed.

Lemma check_html_report_witness :
  fromstring (host_parsing crowded_page) crowded_text = inr crowded_page /\
  splice_safe (spec_of ["app"; "main"] ["title"; "nav > a"] []) /\
  check_html (host_parsing crowded_page)
    (spec_of ["app"; "main"] ["title"; "nav > a"] []) crowded_text =
    ([EvFromstring crowded_text; EvXPath "//*[@id='app']"; EvXPath "//*[@id='main']";
      EvXPath "//title"],
     Ret (html_result ["app"; "main"] ["title"; "nav > a"]
            (["main"], [("app", 3)]) (["title"], ["nav > a"]) ([], []))).
Proof.
  split; [reflexivity |]. split; [exact crowded_spec_safe |].
  exact (check_html_report (host_parsing crowded_page)
           (spec_of ["app"; "main"] ["title"; "nav > a"] []) crowded_text crowded_page
           eq_refl crowded_spec_safe).
Defined.






(** ** Verdicts under composition *)

Lemma verdict_bind_ext {A} (m : M A) (k k' : A -> M CheckResult) :
  (forall a, verdict (k a) = verdict (k' a)) ->
  verdict (m ≫= k) = verdict (m ≫= k').
Proof.
  intros E. destruct m as [t [a | e |]]; try reflexivity.
  rewrite !bind_pair. exact (E a).
Qed.

Lemma verdict_emit (e : event) (k : unit -> M CheckResult) :
  verdict (emit e ≫= k) = verdict (k tt).
Proof. rewrite bind_emit. reflexivity. Qed.

Lemma missing_selectors_skip (doc : node) (before after : list string) (sel : string) :
  selector_target doc sel = None ->
  missing_selectors doc (before ++ sel :: after) = missing_selectors doc (before ++ after).
Proof.
  intros E. unfold missing_selectors. rewrite !List.flat_map_app. cbn [List.flat_map].
  rewrite E. reflexivity.
Qed.

(** X4: a selector outside the recognized vocabulary runs no query and
    only joins the unsupported list; the verdict of [check_html], [ok] and
    the error lines, is the verdict on the spec without that selector. *)
Theorem unsupported_selector_is_harmless (H : Host) (spec : Spec) (html_text : string)
    (before after : list string) (sel : string) :
  (forall doc, selector_target doc sel = None) ->
  the_selectors spec = before ++ sel :: after ->
  (forall doc sel_missing unsupported,
     selectors_step doc sel (sel_missing, unsupported) =
       ([], Ret (sel_missing, unsupported ++ [PyStr.strip sel]))) /\
  verdict (check_html H spec html_text) =
    verdict (check_html H (with_selectors spec (before ++ after)) html_text).
Proof.
  intros Hsel Hspec. split.
  { intros doc m u. rewrite selectors_step_eval, (Hsel doc). reflexivity. }
  destruct (fromstring H html_text) as [e | doc] eqn:Hp.
  { rewrite !(check_html_unparsed _ _ _ _ Hp). reflexivity. }
  rewrite !(check_html_parsed _ _ _ _ Hp), !verdict_emit.
  change (the_ids (with_selectors spec (before ++ after))) with (the_ids spec).
  change (the_selectors (with_selectors spec (before ++ after))) with (before ++ after).
  change (the_data_attrs (with_selectors spec (before ++ after)))
    with (the_data_attrs spec).
  rewrite Hspec. apply verdict_bind_ext. intros a.
  rewrite !selectors_loop_run, !bind_pair.
  rewrite (missing_selectors_skip doc before after sel (Hsel doc)).
  cbn [app].
  set (ms := missing_selectors doc (before ++ after)).
  destruct (for_each (the_data_attrs spec) (data_attrs_step doc) ([], []))
    as [t [c | ex |]]; reflexivity.
Qed.

Lemma unsupported_selector_is_harmless_witness :
  (forall doc, selector_target doc "nav > a" = None) /\
  verdict (check_html (host_parsing crowded_page)
             (spec_of ["app"; "main"] ["title"; "nav > a"] []) crowded_text) =
  verdict (check_html (host_parsing crowded_page)
             (with_selectors (spec_of ["app"; "main"] ["title"; "nav > a"] []) ["title"])
             crowded_text).
Proof.
  assert (Hsel : forall doc, selector_target doc "nav > a" = None).
  { intros doc. reflexivity. }
  split; [exact Hsel |].
  exact (proj2 (unsupported_selector_is_harmless (host_parsing crowded_page)
                  (spec_of ["app"; "main"] ["title"; "nav > a"] []) crowded_text
                  ["title"] [] "nav > a" Hsel eq_refl)).
Defined.

Lemma html_errors_bound (missing : list string) (dupes : list (string * nat))
    (sel_missing da_missing : list string) :
  length (html_errors missing dupes sel_missing da_missing) <= 4.
Proof.
  unfold html_errors. rewrite !length_app.
  destruct (nonempty missing), (nonempty dupes), (nonempty sel_missing),
    (nonempty da_missing); simpl; lia.
Qed.

(** X5: however many requirements fail, a result of [check_html] has at
    most four error lines: each kind of failure is aggregated into one. *)
Theorem at_most_four_error_lines (H : Host) (spec : Spec) (html_text : string)
    (r : CheckResult) :
  result (check_html H spec html_text) = Ret r ->
  exists errs, errors r = Py.strs errs /\ length errs <= 4.
Proof.
  destruct (fromstring H html_text) as [e | doc] eqn:Hp.
  - rewrite (check_html_unparsed _ _ _ _ Hp). intros [= <-].
    exists ["HTML parse error: " +:+ e]. split; [reflexivity | simpl; lia].
  - rewrite (check_html_parsed _ _ _ _ Hp), result_emit.
    intros (a & _ & Hb)%result_bind_Ret.
    apply result_bind_Ret in Hb as (b & _ & Hc).
    apply result_bind_Ret in Hc as (c & _ & Hr).
    injection Hr as <-.
    eexists. split; [reflexivity | apply html_errors_bound].
Qed.

Lemma at_most_four_error_lines_witness :
  result (check_html (host_parsing crowded_page)
            (spec_of ["app"; "main"; "nav"; "footer"] ["title"; "meta[charset]"] [])
            crowded_text)
  = Ret (html_result ["app"; "main"; "nav"; "footer"] ["title"; "meta[charset]"]
           (["main"; "nav"; "footer"], [("app", 3)])
           (["title"; "meta[charset]"], []) ([], [])) /\
  exists errs,
    errors (html_result ["app"; "main"; "nav"; "footer"] ["title"; "meta[charset]"]
              (["main"; "nav"; "footer"], [("app", 3)])
              (["title"; "meta[charset]"], []) ([], [])) = Py.strs errs /\
    length errs <= 4.
Proof.
  split; [reflexivity |].
  exact (at_most_four_error_lines (host_parsing crowded_page)
           (spec_of ["app"; "main"; "nav"; "footer"] ["title"; "meta[charset]"] [])
           crowded_text _ eq_refl).
Defined.

(** X6: for a string without a single quote, the query [_xpath_count]
    runs for a required id counts exactly the elements whose [id]
    attribute is that string, and the query for a name=value pair counts
    the elements that carry the attribute with exactly that value. *)
Theorem xpath_count_is_exact (doc : node) (name v : string) :
  is_ncname name = true ->
  literal_safe v = true ->
  _xpath_count doc (id_query v) = ([EvXPath (id_query v)], Ret (countById doc v)) /\
  _xpath_count doc (attr_query name v) =
    ([EvXPath (attr_query name v)],
     Ret (length (List.filter (fun n => bool_decide (attrs_of n !! name = Some v))
                    (elements doc)))).
Proof.
  intros Hn Hv. split.
  - exact (xpath_count_ret _ _ _ (eval_id_query doc v Hv)).
  - exact (xpath_count_ret _ _ _ (eval_attr_query doc name v Hn Hv)).
Qed.

Lemma xpath_count_is_exact_witness :
  is_ncname "data-role" = true /\
  literal_safe "app" = true /\
  _xpath_count crowded_page (id_query "app") = ([EvXPath "//*[@id='app']"], Ret 3) /\
  _xpath_count crowded_page (attr_query "data-role" "app") =
    ([EvXPath "//*[@data-role='app']"], Ret 0).
Proof.
  split; [reflexivity |]. split; [reflexivity |].
  exact (xpath_count_is_exact crowded_page "data-role" "app" eq_refl eq_refl).
Defined.

(** * Beyond the claims: the paths of [check_js] *)

(** X7: when the version probe of the node runtime fails, [check_js]
    returns a failing result that names Node.js as unavailable, with no
    details, and the probe is the only subprocess of the run: the external
    checker is not launched. *)
Theorem node_unavailable_fails_fast (H : Host)
    (spec_path html_path node_script_path e : string) :
  subprocess_run H ["node"; "--version"] true = inl e ->
  check_js H spec_path html_path node_script_path =
    ([EvRun ["node"; "--version"]],
     Ret {| ok := false;
            errors := PList [PStr ("Node.js not available: " +:+ e)];
            details := PDict [] |}).
Proof. intros E. unfold check_js. rewrite E. reflexivity. Qed.

Lemma node_unavailable_fails_fast_witness :
  subprocess_run (host_parsing app_page) ["node"; "--version"] true
    = inl "[Errno 2] No such file or directory: 'node'" /\
  check_js (host_parsing app_page) "app.sfwa-abi.json" "app.html" "sfwa_js_harness.mjs" =
    ([EvRun ["node"; "--version"]],
     Ret {| ok := false;
            errors := PList [PStr "Node.js not available: [Errno 2] No such file or directory: 'node'"];
            details := PDict [] |}).
Proof.
  split; [reflexivity |].
  exact (node_unavailable_fails_fast (host_parsing app_page)
           "app.sfwa-abi.json" "app.html" "sfwa_js_harness.mjs" _ eq_refl).
Defined.

(** X8: when the runtime is there but launching the external checker
    raises, [check_js] returns a failing result that says so, with no
    details, and decodes nothing. *)
Theorem launch_failure_is_reported (H : Host)
    (spec_path html_path node_script_path e : string) (probe : CompletedProcess) :
  subprocess_run H ["node"; "--version"] true = inr probe ->
  subprocess_run H (checker_argv spec_path html_path node_script_path) false = inl e ->
  check_js H spec_path html_path node_script_path =
    ([EvRun ["node"; "--version"];
      EvRun ["node"; node_script_path; "--spec"; spec_path; "--html"; html_path]],
     Ret {| ok := false;
            errors := PList [PStr ("Failed to execute JS harness: " +:+ e)];
            details := PDict [] |}).
Proof.
  intros E1 E2. unfold check_js, checker_argv in *. rewrite E1, E2. reflexivity.
Qed.

Lemma launch_failure_is_reported_witness :
  subprocess_run host_no_launch ["node"; "--version"] true = inr probe_run /\
  subprocess_run host_no_launch
    (checker_argv "app.sfwa-abi.json" "app.html" "sfwa_js_harness.mjs") false
    = inl "[Errno 13] Permission denied: 'node'" /\
  check_js host_no_launch "app.sfwa-abi.json" "app.html" "sfwa_js_harness.mjs" =
    ([EvRun ["node"; "--version"];
      EvRun ["node"; "sfwa_js_harness.mjs"; "--spec"; "app.sfwa-abi.json";
             "--html"; "app.html"]],
     Ret {| ok := false;
            errors := PList [PStr "Failed to execute JS harness: [Errno 13] Permission denied: 'node'"];
            details := PDict [] |}).
Proof.
  split; [reflexivity |]. split; [reflexivity |].
  exact (launch_failure_is_reported host_no_launch
           "app.sfwa-abi.json" "app.html" "sfwa_js_harness.mjs" _ probe_run
           eq_refl eq_refl).
Defined.

(** X9: when the external checker exits with a code other than 2 and its
    standard output is empty or whitespace only, [check_js] returns a
    failing result with two error entries, the notice that no output was
    produced and the stripped standard error, and never decodes the
    output. *)
Theorem empty_output_is_reported (H : Host)
    (spec_path html_path node_script_path : string) (probe p : CompletedProcess) :
  subprocess_run H ["node"; "--version"] true = inr probe ->
  subprocess_run H (checker_argv spec_path html_path node_script_path) false = inr p ->
  returncode p <> 2%Z ->
  PyStr.strip (stdout p) = EmptyString ->
  check_js H spec_path html_path node_script_path =
    ([EvRun ["node"; "--version"];
      EvRun (checker_argv spec_path html_path node_script_path)],
     Ret {| ok := false;
            errors := PList [PStr "JS harness produced no output.";
                             PStr (PyStr.strip (stderr p))];
            details := PDict [] |}).
Proof.
  intros E1 E2 Hcode Hout.
  rewrite (check_js_completed _ _ _ _ _ _ E1 E2), !bind_emit.
  apply Z.eqb_neq in Hcode. rewrite Hcode, Hout. reflexivity.
Qed.

Lemma empty_output_is_reported_witness :
  returncode silent_run <> 2%Z /\
  PyStr.strip (stdout silent_run) = EmptyString /\
  check_js (host_running silent_run (inl "unused") (inl "unused"))
    "app.sfwa-abi.json" "app.html" "sfwa_js_harness.mjs" =
    ([EvRun ["node"; "--version"];
      EvRun (checker_argv "app.sfwa-abi.json" "app.html" "sfwa_js_harness.mjs")],
     Ret {| ok := false;
            errors := PList [PStr "JS harness produced no output.";
                             PStr "TypeError: app is undefined"];
            details := PDict [] |}).
Proof.
  assert (Hcode : returncode silent_run <> 2%Z) by discriminate.
  split; [exact Hcode |]. split; [reflexivity |].
  exact (empty_output_is_reported
           (host_running silent_run (inl "unused") (inl "unused"))
           "app.sfwa-abi.json" "app.html" "sfwa_js_harness.mjs" probe_run silent_run
           eq_refl eq_refl Hcode eq_refl).
Defined.

Lemma prefix_length (n : nat) (s : string) : String.length (PyStr.prefix n s) <= n.
Proof.
  revert s. induction n as [| n IH]; intros s; [simpl; lia |].
  destruct s as [| c s]; simpl; [lia |]. specialize (IH s). lia.
Qed.

Lemma prefix_is_prefix (n : nat) (s : string) :
  exists rest, s = PyStr.prefix n s +:+ rest.
Proof.
  revert s. induction n as [| n IH]; intros s; [exists s; reflexivity |].
  destruct s as [| c s]; [exists EmptyString; reflexivity |].
  destruct (IH s) as [rest E]. exists rest.
  cbn [PyStr.prefix]. rewrite append_cons, <- E. reflexivity.
Qed.

(** X10: when the output of the external checker is not JSON, [check_js]
    returns a failing result whose errors are the decoder's message and
    the start of the output, cut at 4000 code points, and whose details
    keep the standard error as captured, unstripped. *)
Theorem unparseable_output_is_bounded (H : Host)
    (spec_path html_path node_script_path e : string) (probe p : CompletedProcess) :
  subprocess_run H ["node"; "--version"] true = inr probe ->
  subprocess_run H (checker_argv spec_path html_path node_script_path) false = inr p ->
  returncode p <> 2%Z ->
  PyStr.strip (stdout p) <> EmptyString ->
  json_loads H (stdout p) = inl e ->
  exists shown rest,
    check_js H spec_path html_path node_script_path =
      ([EvRun ["node"; "--version"];
        EvRun (checker_argv spec_path html_path node_script_path);
        EvJsonLoads (stdout p)],
       Ret {| ok := false;
              errors := PList [PStr ("JS harness output was not valid JSON: " +:+ e);
                               PStr shown];
              details := PDict [("stderr", PStr (stderr p))] |}) /\
    String.length shown <= 4000 /\
    stdout p = shown +:+ rest.
Proof.
  intros E1 E2 Hcode Hout Hload.
  destruct (prefix_is_prefix 4000 (stdout p)) as [rest Hrest].
  exists (PyStr.prefix 4000 (stdout p)), rest.
  split; [| split; [apply prefix_length | exact Hrest]].
  rewrite (check_js_completed _ _ _ _ _ _ E1 E2), !bind_emit.
  apply Z.eqb_neq in Hcode. rewrite Hcode.
  destruct (PyStr.strip (stdout p)) as [| c s]; [congruence |].
  cbn [PyStr.truthy negb]. rewrite Hload. reflexivity.
Qed.

Lemma unparseable_output_is_bounded_witness :
  returncode chatty_run <> 2%Z /\
  PyStr.strip (stdout chatty_run) <> EmptyString /\
  exists shown rest,
    check_js (host_running chatty_run (inl "Expecting value: line 1 column 1 (char 0)")
                (inl "unused"))
      "app.sfwa-abi.json" "app.html" "sfwa_js_harness.mjs" =
      ([EvRun ["node"; "--version"];
        EvRun (checker_argv "app.sfwa-abi.json" "app.html" "sfwa_js_harness.mjs");
        EvJsonLoads (stdout chatty_run)],
       Ret {| ok := false;
              errors := PList [PStr ("JS harness output was not valid JSON: "
                                       +:+ "Expecting value: line 1 column 1 (char 0)");
                               PStr shown];
              details := PDict [("stderr", PStr (stderr chatty_run))] |}) /\
    String.length shown <= 4000 /\
    stdout chatty_run = shown +:+ rest.
Proof.
  assert (Hcode : returncode chatty_run <> 2%Z) by discriminate.
  assert (Hout : PyStr.strip (stdout chatty_run) <> EmptyString) by discriminate.
  split; [exact Hcode |]. split; [exact Hout |].
  exact (unparseable_output_is_bounded
           (host_running chatty_run (inl "Expecting value: line 1 column 1 (char 0)")
              (inl "unused"))
           "app.sfwa-abi.json" "app.html" "sfwa_js_harness.mjs" _ probe_run chatty_run
           eq_refl eq_refl Hcode Hout eq_refl).
Defined.

(** ** The decoded payload, again *)

Lemma check_js_decoded (H : Host) (spec_path html_path node_script_path : string)
    (probe p : CompletedProcess) (payload : pyval) :
  subprocess_run H ["node"; "--version"] true = inr probe ->
  subprocess_run H (checker_argv spec_path html_path node_script_path) false = inr p ->
  returncode p <> 2%Z ->
  PyStr.strip (stdout p) <> EmptyString ->
  json_loads H (stdout p) = inr payload ->
  check_js H spec_path html_path node_script_path =
    ([EvRun ["node"; "--version"];
      EvRun (checker_argv spec_path html_path node_script_path);
      EvJsonLoads (stdout p)] ++ trace (payload_result (stderr p) payload),
     result (payload_result (stderr p) payload)).
Proof.
  intros E1 E2 Hcode Hout Hload.
  rewrite (check_js_completed _ _ _ _ _ _ E1 E2), !bind_emit.
  apply Z.eqb_neq in Hcode. rewrite Hcode.
  destruct (PyStr.strip (stdout p)) as [| c s]; [congruence |].
  cbn [PyStr.truthy negb]. rewrite Hload. reflexivity.
Qed.

Lemma assoc_set_eq (k : string) (v : pyval) (d : list (string * pyval)) :
  Py.assoc k (Py.assoc_set k v d) = Some v.
Proof.
  induction d as [| [k' v'] d IH]; cbn [Py.assoc_set Py.assoc].
  - rewrite String.eqb_refl. reflexivity.
  - destruct (String.eqb k k') eqn:E; cbn [Py.assoc].
    + rewrite String.eqb_refl. reflexivity.
    + rewrite E. exact IH.
Qed.

Lemma assoc_set_ne (k k' : string) (v : pyval) (d : list (string * pyval)) :
  k' <> k -> Py.assoc k' (Py.assoc_set k v d) = Py.assoc k' d.
Proof.
  intros Hne. apply String.eqb_neq in Hne.
  induction d as [| [k0 v0] d IH]; cbn [Py.assoc_set Py.assoc].
  - rewrite Hne. reflexivity.
  - destruct (String.eqb k k0) eqn:E; cbn [Py.assoc].
    + apply String.eqb_eq in E. subst k0. rewrite Hne. reflexivity.
    + destruct (String.eqb k' k0); [reflexivity | exact IH].
Qed.



(** X12: when the payload's [details] is a dict, or is absent, null or
    empty, [check_js] returns, and its details are that dict with the
    stripped standard error stored under the key [stderr] whenever the
    standard error has text: a lookup of [stderr] gives the text, a lookup
    of any other key gives what the payload held; with a blank standard
    error the dict is passed on untouched. *)
Theorem stderr_is_kept_in_details (H : Host)
    (spec_path html_path node_script_path : string) (probe p : CompletedProcess)
    (d dd : list (string * pyval)) :
  subprocess_run H ["node"; "--version"] true = inr probe ->
  subprocess_run H (checker_argv spec_path html_path node_script_path) false = inr p ->
  returncode p <> 2%Z ->
  PyStr.strip (stdout p) <> EmptyString ->
  json_loads H (stdout p) = inr (PDict d) ->
  Py.or_else (default PNone (Py.assoc "details" d)) (PDict []) = PDict dd ->
  exists r dd',
    check_js H spec_path html_path node_script_path =
      ([EvRun ["node"; "--version"];
        EvRun (checker_argv spec_path html_path node_script_path);
        EvJsonLoads (stdout p)], Ret r) /\
    details r = PDict dd' /\
    (PyStr.strip (stderr p) = EmptyString -> dd' = dd) /\
    (PyStr.strip (stderr p) <> EmptyString ->
       Py.assoc "stderr" dd' = Some (PStr (PyStr.strip (stderr p))) /\
       forall k, k <> "stderr" -> Py.assoc k dd' = Py.assoc k dd).
Proof.
  intros E1 E2 Hcode Hout Hload Hdet.
  rewrite (check_js_decoded _ _ _ _ _ _ _ E1 E2 Hcode Hout Hload).
  rewrite payload_result_dict. cbn zeta. rewrite Hdet.
  destruct (PyStr.strip (stderr p)) as [| c s] eqn:Es; cbn [PyStr.truthy].
  - rewrite bind_mret. eexists. exists dd. split; [reflexivity |].
    split; [reflexivity |]. split; [reflexivity | congruence].
  - cbn [py_setitem]. rewrite bind_mret.
    eexists. exists (Py.assoc_set "stderr" (PStr (String c s)) dd).
    split; [reflexivity |]. split; [reflexivity |]. split; [discriminate |].
    intros _. split; [apply assoc_set_eq |]. intros k Hk. apply assoc_set_ne. exact Hk.
Qed.

Lemma stderr_is_kept_in_details_witness :
  returncode passing_run <> 2%Z /\
  PyStr.strip (stdout passing_run) <> EmptyString /\
  exists r dd',
    check_js (host_running passing_run (inr (PDict details_only_payload)) (inl "unused"))
      "app.sfwa-abi.json" "app.html" "sfwa_js_harness.mjs" =
      ([EvRun ["node"; "--version"];
        EvRun (checker_argv "app.sfwa-abi.json" "app.html" "sfwa_js_harness.mjs");
        EvJsonLoads (stdout passing_run)], Ret r) /\
    details r = PDict dd' /\
    (PyStr.strip (stderr passing_run) = EmptyString -> dd' = [("tests", PInt 3)]) /\
    (PyStr.strip (stderr passing_run) <> EmptyString ->
       Py.assoc "stderr" dd' = Some (PStr (PyStr.strip (stderr passing_run))) /\
       forall k, k <> "stderr" -> Py.assoc k dd' = Py.assoc k [("tests", PInt 3)]).
Proof.
  assert (Hcode : returncode passing_run <> 2%Z) by discriminate.
  assert (Hout : PyStr.strip (stdout passing_run) <> EmptyString) by discriminate.
  split; [exact Hcode |]. split; [exact Hout |].
  exact (stderr_is_kept_in_details
           (host_running passing_run (inr (PDict details_only_payload)) (inl "unused"))
           "app.sfwa-abi.json" "app.html" "sfwa_js_harness.mjs" probe_run passing_run
           details_only_payload [("tests", PInt 3)]
           eq_refl eq_refl Hcode Hout eq_refl eq_refl).
Defined.

(** X13: when the output decodes to JSON that is not an object (a list, a
    string, a number, a boolean or null), [check_js] returns no result:
    the first [payload.get] raises [AttributeError], outside any try
    block. *)
Theorem non_object_payload_raises (H : Host)
    (spec_path html_path node_script_path : string) (probe p : CompletedProcess)
    (payload : pyval) :
  subprocess_run H ["node"; "--version"] true = inr probe ->
  subprocess_run H (checker_argv spec_path html_path node_script_path) false = inr p ->
  returncode p <> 2%Z ->
  PyStr.strip (stdout p) <> EmptyString ->
  json_loads H (stdout p) = inr payload ->
  (forall d, payload <> PDict d) ->
  check_js H spec_path html_path node_script_path =
    ([EvRun ["node"; "--version"];
      EvRun (checker_argv spec_path html_path node_script_path);
      EvJsonLoads (stdout p)], Raise AttributeError).
Proof.
  intros E1 E2 Hcode Hout Hload Hnd.
  rewrite (check_js_decoded _ _ _ _ _ _ _ E1 E2 Hcode Hout Hload).
  destruct payload; try reflexivity. destruct (Hnd d). reflexivity.
Qed.

Lemma non_object_payload_raises_witness :
  returncode chatty_run <> 2%Z /\
  PyStr.strip (stdout chatty_run) <> EmptyString /\
  (forall d, PList [PBool true] <> PDict d) /\
  check_js (host_running chatty_run (inr (PList [PBool true])) (inl "unused"))
    "app.sfwa-abi.json" "app.html" "sfwa_js_harness.mjs" =
    ([EvRun ["node"; "--version"];
      EvRun (checker_argv "app.sfwa-abi.json" "app.html" "sfwa_js_harness.mjs");
      EvJsonLoads (stdout chatty_run)], Raise AttributeError).
Proof.
  assert (Hcode : returncode chatty_run <> 2%Z) by discriminate.
  assert (Hout : PyStr.strip (stdout chatty_run) <> EmptyString) by discriminate.
  assert (Hnd : forall d, PList [PBool true] <> PDict d) by discriminate.
  split; [exact Hcode |]. split; [exact Hout |]. split; [exact Hnd |].
  exact (non_object_payload_raises
           (host_running chatty_run (inr (PList [PBool true])) (inl "unused"))
           "app.sfwa-abi.json" "app.html" "sfwa_js_harness.mjs" probe_run chatty_run
           (PList [PBool true]) eq_refl eq_refl Hcode Hout eq_refl Hnd).
Defined.

(** X14: an exit code other than 2 has no say: two external checkers that
    print the same output and the same diagnostics, decoded alike, give
    the same run of [check_js] whatever their exit codes. *)
Theorem exit_code_has_no_say (H H' : Host)
    (spec_path html_path node_script_path : string) (probe probe' p p' : CompletedProcess) :
  subprocess_run H ["node"; "--version"] true = inr probe ->
  subprocess_run H' ["node"; "--version"] true = inr probe' ->
  subprocess_run H (checker_argv spec_path html_path node_script_path) false = inr p ->
  subprocess_run H' (checker_argv spec_path html_path node_script_path) false = inr p' ->
  returncode p <> 2%Z -> returncode p' <> 2%Z ->
  stdout p = stdout p' -> stderr p = stderr p' ->
  json_loads H (stdout p) = json_loads H' (stdout p) ->
  check_js H spec_path html_path node_script_path =
    check_js H' spec_path html_path node_script_path.
Proof.
  intros E1 E1' E2 E2' Hc Hc' Hout Herr Hload.
  rewrite (check_js_completed _ _ _ _ _ _ E1 E2),
    (check_js_completed _ _ _ _ _ _ E1' E2').
  apply Z.eqb_neq in Hc, Hc'. rewrite Hc, Hc', <- Hout, <- Herr, Hload. reflexivity.
Qed.

Lemma exit_code_has_no_say_witness :
  returncode passing_run <> 2%Z /\ returncode passing_run_exit1 <> 2%Z /\
  returncode passing_run <> returncode passing_run_exit1 /\
  check_js (host_running passing_run (inr (PDict details_only_payload)) (inl "unused"))
    "app.sfwa-abi.json" "app.html" "sfwa_js_harness.mjs" =
  check_js (host_running passing_run_exit1 (inr (PDict details_only_payload)) (inl "unused"))
    "app.sfwa-abi.json" "app.html" "sfwa_js_harness.mjs".
Proof.
  assert (Hc : returncode passing_run <> 2%Z) by discriminate.
  assert (Hc' : returncode passing_run_exit1 <> 2%Z) by discriminate.
  split; [exact Hc |]. split; [exact Hc' |]. split; [discriminate |].
  exact (exit_code_has_no_say
           (host_running passing_run (inr (PDict details_only_payload)) (inl "unused"))
           (host_running passing_run_exit1 (inr (PDict details_only_payload)) (inl "unused"))
           "app.sfwa-abi.json" "app.html" "sfwa_js_harness.mjs"
           probe_run probe_run passing_run passing_run_exit1
           eq_refl eq_refl eq_refl eq_refl Hc Hc' eq_refl eq_refl eq_refl).
Defined.

(** * Beyond the claims: the orchestrator *)

Lemma two_steps_then {A} (m m' : M A) (e1 e2 : event) :
  m = m' ->
  (e1 :: trace (e2 :: trace m, result m), result (e2 :: trace m, result m))
  = ([e1; e2] ++ trace m', result m').
Proof. intros ->. reflexivity. Qed.

Lemma main_loaded (H : Host) (args : Args) (spec : Spec) (html_text : string) :
  read_json H (arg_spec args) = inr spec ->
  abi spec = Some "sfwa-abi-1" ->
  read_text H (arg_html args) = inr html_text ->
  main H args =
    ([EvReadJson (arg_spec args); EvReadText (arg_html args)]
       ++ trace (run_checks H args spec html_text),
     result (run_checks H args spec html_text)).
Proof.
  intros Hj Habi Ht. unfold main, _read_json, _read_text.
  rewrite Hj, bind_emit_mret, (bool_decide_eq_true_2 _ Habi). cbn [negb].
  rewrite Ht, bind_emit_mret.
  apply two_steps_then.
  unfold run_checks, html_phase. apply bind_ext. intros [results overall_ok].
  unfold js_phase. cbn [fst snd]. apply bind_ext. intros [results' overall_ok'].
  reflexivity.
Qed.

(** X15: when the spec file cannot be read, or the spec is of the
    supported dialect and the document file cannot be read, [main] prints
    the cause on standard error and exits with code 2 without a step of
    either checker and without a report. *)
Theorem unreadable_input_exits_two (H : Host) (args : Args) :
  (forall e, read_json H (arg_spec args) = inl e ->
     main H args =
       ([EvReadJson (arg_spec args);
         EvPrint Stderr ("Error: cannot read spec: " +:+ e)],
        Raise (SystemExit 2))) /\
  (forall spec e,
     read_json H (arg_spec args) = inr spec ->
     abi spec = Some "sfwa-abi-1" ->
     read_text H (arg_html args) = inl e ->
     main H args =
       ([EvReadJson (arg_spec args); EvReadText (arg_html args);
         EvPrint Stderr ("Error: cannot read HTML file: " +:+ e)],
        Raise (SystemExit 2))).
Proof.
  split.
  - intros e Hj. unfold main, _read_json. rewrite Hj, bind_emit_mret. reflexivity.
  - intros spec e Hj Habi Ht. unfold main, _read_json, _read_text.
    rewrite Hj, bind_emit_mret, (bool_decide_eq_true_2 _ Habi). cbn [negb].
    rewrite Ht, bind_emit_mret. reflexivity.
Qed.

Lemma unreadable_input_exits_two_witness :
  main (host_parsing app_page) demo_args =
    ([EvReadJson "app.sfwa-abi.json";
      EvPrint Stderr "Error: cannot read spec: [Errno 2] No such file or directory"],
     Raise (SystemExit 2)) /\
  main (host_running crashed_run (inl "unused") (inr app_spec)) demo_args =
    ([EvReadJson "app.sfwa-abi.json"; EvReadText "app.html";
      EvPrint Stderr "Error: cannot read HTML file: [Errno 2] No such file or directory"],
     Raise (SystemExit 2)).
Proof.
  split.
  - exact (proj1 (unreadable_input_exits_two (host_parsing app_page) demo_args)
             _ eq_refl).
  - exact (proj2 (unreadable_input_exits_two
                    (host_running crashed_run (inl "unused") (inr app_spec)) demo_args)
             app_spec _ eq_refl eq_refl eq_refl).
Defined.

(** ** The exit code *)

Lemma result_bind {A B} (m : M A) (k : A -> M B) (a : A) :
  result m = Ret a -> result (m ≫= k) = result (k a).
Proof.
  destruct m as [t o]. intros E. change (o = Ret a) in E. subst o.
  rewrite bind_pair. reflexivity.
Qed.

Lemma result_bind_raise {A B} (m : M A) (k : A -> M B) (e : exn) :
  result m = Raise e -> result (m ≫= k) = Raise e.
Proof.
  destruct m as [t o]. intros E. change (o = Raise e) in E. subst o. reflexivity.
Qed.

Lemma print_items_return (items : list pyval) :
  result (for_each items (fun e _ => emit (EvPrintItem e)) tt) = Ret tt.
Proof.
  induction items as [| x items IH]; [reflexivity |].
  cbn [for_each]. rewrite result_emit. exact IH.
Qed.

Lemma py_iter_returns (v : pyval) :
  iterable v = true -> exists items, py_iter v = mret items.
Proof. destruct v; try discriminate; intros _; eexists; reflexivity. Qed.

Lemma print_kind_returns (label key : string) (results : list (string * CheckResult)) :
  Forall (fun kr => iterable (errors (snd kr)) = true) results ->
  result (print_kind label key results) = Ret tt.
Proof.
  intros Hall. unfold print_kind.
  destruct (List.find (fun kr => String.eqb (fst kr) key) results) as [[k r] |] eqn:Ef;
    [| reflexivity].
  apply List.find_some in Ef as [Hin _].
  rewrite List.Forall_forall in Hall. specialize (Hall _ Hin). cbn [snd] in Hall.
  destruct (py_iter_returns _ Hall) as [items Hi].
  rewrite result_emit, Hi, bind_mret. apply print_items_return.
Qed.

Lemma print_report_returns (args : Args) (spec : Spec)
    (results : list (string * CheckResult)) (overall_ok : bool) :
  (arg_json args = false ->
   Forall (fun kr => iterable (errors (snd kr)) = true) results) ->
  result (print_report args spec results overall_ok) = Ret tt.
Proof.
  intros Hall. unfold print_report. destruct (arg_json args); [reflexivity |].
  specialize (Hall eq_refl). rewrite result_emit.
  rewrite (result_bind _ _ tt (print_kind_returns _ _ _ Hall)).
  rewrite (result_bind _ _ tt (print_kind_returns _ _ _ Hall)).
  reflexivity.
Qed.

Lemma html_errors_iterable (H : Host) (spec : Spec) (html_text : string)
    (r : CheckResult) :
  result (check_html H spec html_text) = Ret r -> iterable (errors r) = true.
Proof. intros (errs & _ & -> & _)%check_html_shape. reflexivity. Qed.

Lemma run_checks_exit (H : Host) (args : Args) (spec : Spec) (html_text : string)
    (rh rj : CheckResult) :
  (arg_mode args <> ModeJs -> result (check_html H spec html_text) = Ret rh) ->
  (arg_mode args <> ModeHtml ->
   result (check_js H (arg_spec args) (arg_html args) (arg_node_harness args)) = Ret rj) ->
  (arg_json args = false -> arg_mode args <> ModeHtml -> iterable (errors rj) = true) ->
  result (run_checks H args spec html_text) =
    Raise (SystemExit (exit_code (overall (arg_mode args) (ok rh) (ok rj)))).
Proof.
  intros Hh Hj Hit. unfold run_checks.
  assert (Hhp : exists acc,
    result (html_phase H args spec html_text) = Ret acc /\
    snd acc = match arg_mode args with ModeJs => true | _ => ok rh end /\
    Forall (fun kr => iterable (errors (snd kr)) = true) (fst acc)).
  { unfold html_phase. destruct (arg_mode args).
    - specialize (Hh ltac:(discriminate)). eexists. split.
      + rewrite (result_bind _ _ _ Hh). reflexivity.
      + split; [reflexivity |]. repeat constructor.
        exact (html_errors_iterable _ _ _ _ Hh).
    - eexists. split; [reflexivity |]. split; [reflexivity | constructor].
    - specialize (Hh ltac:(discriminate)). eexists. split.
      + rewrite (result_bind _ _ _ Hh). reflexivity.
      + split; [reflexivity |]. repeat constructor.
        exact (html_errors_iterable _ _ _ _ Hh). }
  destruct Hhp as ([results okh] & Ea & Hok & Hall). cbn [fst snd] in Hok, Hall.
  rewrite (result_bind _ _ _ Ea).
  assert (Hjp : exists acc',
    result (js_phase H args (results, okh)) = Ret acc' /\
    snd acc' = overall (arg_mode args) (ok rh) (ok rj) /\
    (arg_json args = false ->
     Forall (fun kr => iterable (errors (snd kr)) = true) (fst acc'))).
  { unfold js_phase. destruct (arg_mode args) eqn:Em; subst okh.
    - eexists. split; [reflexivity |]. split; [reflexivity | intros _; exact Hall].
    - specialize (Hj ltac:(discriminate)). eexists. split.
      + rewrite (result_bind _ _ _ Hj). reflexivity.
      + split; [reflexivity |]. intros Hjson. cbn [fst].
        apply Forall_app. split; [exact Hall |]. repeat constructor.
        exact (Hit Hjson ltac:(discriminate)).
    - specialize (Hj ltac:(discriminate)). eexists. split.
      + rewrite (result_bind _ _ _ Hj). reflexivity.
      + split; [reflexivity |]. intros Hjson. cbn [fst].
        apply Forall_app. split; [exact Hall |]. repeat constructor.
        exact (Hit Hjson ltac:(discriminate)). }
  destruct Hjp as ([results' ok'] & Eb & Hok' & Hall'). cbn [fst snd] in Hok', Hall'.
  rewrite (result_bind _ _ _ Eb). cbn [fst snd].
  rewrite (result_bind _ _ tt (print_report_returns _ _ _ _ Hall')).
  rewrite Hok'. reflexivity.
Qed.

(** X16: once both files are read and the dialect is the supported one,
    [main] exits with code 0 when every check that the mode includes
    returned [ok = true], and with code 1 otherwise; a check that the mode
    leaves out has no say.  (The text report needs error values it can
    iterate over; the structural checker's always are.) *)
Theorem exit_code_is_conjunction (H : Host) (args : Args) (spec : Spec)
    (html_text : string) (rh rj : CheckResult) :
  read_json H (arg_spec args) = inr spec ->
  abi spec = Some "sfwa-abi-1" ->
  read_text H (arg_html args) = inr html_text ->
  (arg_mode args <> ModeJs -> result (check_html H spec html_text) = Ret rh) ->
  (arg_mode args <> ModeHtml ->
   result (check_js H (arg_spec args) (arg_html args) (arg_node_harness args)) = Ret rj) ->
  (arg_json args = false -> arg_mode args <> ModeHtml -> iterable (errors rj) = true) ->
  result (main H args) =
    Raise (SystemExit (if overall (arg_mode args) (ok rh) (ok rj) then 0 else 1)%Z).
Proof.
  intros Hrj Habi Hrt Hh Hj Hit.
  rewrite (main_loaded _ _ _ _ Hrj Habi Hrt). unfold result at 1. cbn [snd].
  exact (run_checks_exit H args spec html_text rh rj Hh Hj Hit).
Qed.

Lemma exit_code_is_conjunction_witness :
  read_json (host_full app_page app_spec bare_failure_run (inr bare_failure_payload))
    (arg_spec (args_in ModeAll false)) = inr app_spec /\
  abi app_spec = Some "sfwa-abi-1" /\
  ok (html_result ["app"] ["title"] ([], []) ([], []) (["data-role=main"], [])) = true /\
  result (main (host_full app_page app_spec bare_failure_run (inr bare_failure_payload))
            (args_in ModeAll false)) = Raise (SystemExit 1) /\
  result (main (host_full app_page app_spec bare_failure_run (inr bare_failure_payload))
            (args_in ModeHtml false)) = Raise (SystemExit 0).
Proof.
  split; [reflexivity |]. split; [reflexivity |]. split; [reflexivity |]. split.
  - exact (exit_code_is_conjunction
             (host_full app_page app_spec bare_failure_run (inr bare_failure_payload))
             (args_in ModeAll false) app_spec app_text
             (html_result ["app"] ["title"] ([], []) ([], []) (["data-role=main"], []))
             {| ok := false;
                errors := PList [PStr "JS compliance failed."];
                details := PDict [("stderr", PStr "warning: slow")] |}
             eq_refl eq_refl eq_refl (fun _ => eq_refl) (fun _ => eq_refl)
             (fun _ _ => eq_refl)).
  - exact (exit_code_is_conjunction
             (host_full app_page app_spec bare_failure_run (inr bare_failure_payload))
             (args_in ModeHtml false) app_spec app_text
             (html_result ["app"] ["title"] ([], []) ([], []) (["data-role=main"], []))
             {| ok := false;
                errors := PInt 7;
                details := PDict [] |}
             eq_refl eq_refl eq_refl (fun _ => eq_refl)
             (fun Hm => match Hm eq_refl with end)
             (fun _ Hm => match Hm eq_refl with end)).
Defined.

(** X17: when the node runtime is missing and the mode includes the
    behavioral check, [main] does not stop with the harness-error code 2:
    [check_js] returns an ordinary failing result and [main] exits with
    code 1, once the structural check, if the mode includes it, has
    returned. *)
Theorem missing_node_exits_one (H : Host) (args : Args) (spec : Spec)
    (html_text e : string) (rh : CheckResult) :
  read_json H (arg_spec args) = inr spec ->
  abi spec = Some "sfwa-abi-1" ->
  read_text H (arg_html args) = inr html_text ->
  arg_mode args <> ModeHtml ->
  (arg_mode args <> ModeJs -> result (check_html H spec html_text) = Ret rh) ->
  subprocess_run H ["node"; "--version"] true = inl e ->
  result (main H args) = Raise (SystemExit 1).
Proof.
  intros Hrj Habi Hrt Hmode Hh Hprobe.
  rewrite (main_loaded _ _ _ _ Hrj Habi Hrt). unfold result at 1. cbn [snd].
  rewrite (run_checks_exit H args spec html_text rh
             {| ok := false;
                errors := Py.strs ["Node.js not available: " +:+ e];
                details := PDict [] |} Hh).
  - cbn [ok]. destruct (arg_mode args); [congruence | reflexivity |].
    cbn [overall]. rewrite andb_false_r. reflexivity.
  - intros _. rewrite (check_js_no_node _ _ _ _ _ Hprobe). reflexivity.
  - intros _ _. reflexivity.
Qed.

Lemma missing_node_exits_one_witness :
  arg_mode (args_in ModeJs false) <> ModeHtml /\
  subprocess_run (host_without_node app_page app_spec) ["node"; "--version"] true
    = inl "[Errno 2] No such file or directory: 'node'" /\
  result (main (host_without_node app_page app_spec) (args_in ModeJs false))
    = Raise (SystemExit 1).
Proof.
  assert (Hm : arg_mode (args_in ModeJs false) <> ModeHtml) by discriminate.
  split; [exact Hm |]. split; [reflexivity |].
  exact (missing_node_exits_one (host_without_node app_page app_spec)
           (args_in ModeJs false) app_spec app_text _
           {| ok := true; errors := PList []; details := PDict [] |}
           eq_refl eq_refl eq_refl Hm (fun Hn => match Hn eq_refl with end) eq_refl).
Defined.

Lemma bind_raised {A B} (m : M A) (k : A -> M B) (e : exn) :
  result m = Raise e -> (m ≫= k) = (trace m, Raise e).
Proof.
  destruct m as [t o]. intros E. change (o = Raise e) in E. subst o. reflexivity.
Qed.

(** X18: an exception that leaves [check_html] leaves [main] too: when the
    mode includes the structural check and [check_html] raises, [main]
    ends with that exception right after the steps of [check_html], with no
    report printed, no behavioral check and no exit code. *)
Theorem exception_crosses_main (H : Host) (args : Args) (spec : Spec)
    (html_text : string) (e : exn) :
  read_json H (arg_spec args) = inr spec ->
  abi spec = Some "sfwa-abi-1" ->
  read_text H (arg_html args) = inr html_text ->
  arg_mode args <> ModeJs ->
  result (check_html H spec html_text) = Raise e ->
  main H args =
    ([EvReadJson (arg_spec args); EvReadText (arg_html args)]
       ++ trace (check_html H spec html_text), Raise e).
Proof.
  intros Hrj Habi Hrt Hmode He.
  rewrite (main_loaded _ _ _ _ Hrj Habi Hrt).
  assert (E : run_checks H args spec html_text
              = (trace (check_html H spec html_text), Raise e)).
  { unfold run_checks, html_phase.
    destruct (arg_mode args); [| congruence |];
      rewrite (bind_raised _ _ _ (result_bind_raise _ _ _ He));
      rewrite (bind_raised _ _ _ He); reflexivity. }
  rewrite E. reflexivity.
Qed.

Lemma exception_crosses_main_witness :
  arg_mode (args_in ModeAll true) <> ModeJs /\
  result (check_html (host_full quote_page quote_spec crashed_run (inl "unused"))
            quote_spec app_text) = Raise XPathEvalError /\
  main (host_full quote_page quote_spec crashed_run (inl "unused")) (args_in ModeAll true) =
    ([EvReadJson "app.sfwa-abi.json"; EvReadText "app.html";
      EvFromstring app_text; EvXPath "//*[@id=''']"], Raise XPathEvalError).
Proof.
  assert (Hm : arg_mode (args_in ModeAll true) <> ModeJs) by discriminate.
  split; [exact Hm |]. split; [reflexivity |].
  exact (exception_crosses_main (host_full quote_page quote_spec crashed_run (inl "unused"))
           (args_in ModeAll true) quote_spec app_text XPathEvalError
           eq_refl eq_refl eq_refl Hm eq_refl).
Defined.

(** ** Which steps a run can take *)

Lemma trace_bind_Forall {A B} (P : event -> Prop) (m : M A) (k : A -> M B) :
  Forall P (trace m) -> (forall a, Forall P (trace (k a))) ->
  Forall P (trace (m ≫= k)).
Proof.
  intros Hm Hk. destruct m as [t [a | e |]]; try exact Hm.
  rewrite bind_pair. apply Forall_app. split; [exact Hm | exact (Hk a)].
Qed.

Lemma for_each_trace {A S} (P : event -> Prop) (l : list A) (body : A -> S -> M S) :
  (forall x s, Forall P (trace (body x s))) ->
  forall s, Forall P (trace (for_each l body s)).
Proof.
  intros Hb. induction l as [| x l IH]; intros s; [constructor |].
  cbn [for_each]. apply trace_bind_Forall; [apply Hb | exact IH].
Qed.

Ltac walk_trace :=
  repeat first
    [ apply trace_bind_Forall; [| intros ?]
    | apply for_each_trace; intros ? ?
    | match goal with
      | |- Forall _ (trace (match ?x with _ => _ end)) => destruct x
      end
    | solve [repeat constructor] ].

Lemma xpath_count_trace (doc : node) (q : string) :
  Forall (fun e => structural_event e = true) (trace (_xpath_count doc q)).
Proof. unfold _xpath_count. walk_trace. Qed.

Lemma check_html_trace (H : Host) (spec : Spec) (html_text : string) :
  Forall (fun e => structural_event e = true) (trace (check_html H spec html_text)).
Proof.
  unfold check_html. apply trace_bind_Forall; [repeat constructor | intros _].
  destruct (fromstring H html_text) as [e | doc]; [constructor |].
  apply trace_bind_Forall.
  { apply for_each_trace. intros idv [m d]. unfold ids_step.
    apply trace_bind_Forall; [apply xpath_count_trace | intros n].
    destruct (n =? 0)%nat; [constructor |]. destruct (1 <? n)%nat; constructor. }
  intros [missing dupes]. apply trace_bind_Forall.
  { apply for_each_trace. intros sel [m u]. unfold selectors_step.
    repeat match goal with
           | |- Forall _ (trace (if ?b then _ else _)) => destruct b
           | |- Forall _ (trace (_ ≫= _)) =>
               apply trace_bind_Forall; [apply xpath_count_trace | intros ?]
           end; constructor. }
  intros [sel_missing unsupported]. apply trace_bind_Forall.
  { apply for_each_trace. intros da acc. unfold data_attrs_step.
    destruct (da_name da) as [[| c n] |]; try constructor.
    destruct (default [] (da_values da)) as [| v vs] eqn:Ev; [constructor |].
    apply for_each_trace. intros v' [en mi]. unfold values_step.
    apply trace_bind_Forall; [apply xpath_count_trace | intros n0].
    destruct (n0 =? 0)%nat; constructor. }
  intros [enforced da_missing]. constructor.
Qed.

Lemma payload_result_trace (stderr_text : string) (payload : pyval) :
  trace (payload_result stderr_text payload) = [].
Proof.
  destruct payload; try reflexivity.
  rewrite payload_result_dict. cbn zeta.
  destruct (PyStr.truthy (PyStr.strip stderr_text)).
  - destruct (details_store (Py.assoc "details" d) (PyStr.strip stderr_text))
      as [[dd Hs] | [Hs _]]; cbn zeta in Hs; rewrite Hs; reflexivity.
  - reflexivity.
Qed.

Lemma check_js_trace (H : Host) (spec_path html_path node_script_path : string) :
  Forall (fun e => bridge_event e = true)
    (trace (check_js H spec_path html_path node_script_path)).
Proof.
  destruct (subprocess_run H ["node"; "--version"] true) as [e | probe] eqn:E1.
  { rewrite (check_js_no_node _ _ _ _ _ E1). repeat constructor. }
  destruct (subprocess_run H (checker_argv spec_path html_path node_script_path) false)
    as [e | p] eqn:E2.
  { rewrite (check_js_no_launch _ _ _ _ _ _ E1 E2). repeat constructor. }
  rewrite (check_js_completed _ _ _ _ _ _ E1 E2).
  apply trace_bind_Forall; [repeat constructor | intros _].
  apply trace_bind_Forall; [repeat constructor | intros _].
  destruct (returncode p =? 2)%Z; [constructor |].
  destruct (negb (PyStr.truthy (PyStr.strip (stdout p)))); [constructor |].
  apply trace_bind_Forall; [repeat constructor | intros _].
  destruct (json_loads H (stdout p)) as [e | payload]; [constructor |].
  rewrite payload_result_trace. constructor.
Qed.

Lemma print_kind_trace (P : event -> Prop) (label key : string)
    (results : list (string * CheckResult)) :
  (forall e, structural_event e = false -> bridge_event e = false -> P e) ->
  Forall P (trace (print_kind label key results)).
Proof.
  intros HP. unfold print_kind.
  destruct (List.find (fun kr => String.eqb (fst kr) key) results) as [[k r] |];
    [| constructor].
  apply trace_bind_Forall; [repeat constructor; apply HP; reflexivity | intros _].
  apply trace_bind_Forall; [destruct (errors r); constructor | intros items].
  apply for_each_trace. intros e u. repeat constructor. apply HP; reflexivity.
Qed.

Lemma trace_mret_Forall {A} (P : event -> Prop) (a : A) :
  Forall P (trace (mret a : M A)).
Proof. constructor. Qed.

Lemma main_trace (H : Host) (args : Args) (P : event -> Prop) :
  (forall e, structural_event e = false -> bridge_event e = false -> P e) ->
  (arg_mode args <> ModeJs -> forall e, structural_event e = true -> P e) ->
  (arg_mode args <> ModeHtml -> forall e, bridge_event e = true -> P e) ->
  Forall P (trace (main H args)).
Proof.
  intros HP Hs Hb.
  assert (Hemit : forall e, structural_event e = false -> bridge_event e = false ->
                            Forall P (trace (emit e))).
  { intros e E1 E2. repeat constructor. exact (HP e E1 E2). }
  unfold main, _read_json, _read_text.
  apply trace_bind_Forall.
  { apply trace_bind_Forall; [apply Hemit; reflexivity | intros _; constructor]. }
  intros [e | spec].
  { apply trace_bind_Forall; [apply Hemit; reflexivity | intros _; constructor]. }
  destruct (negb (bool_decide (abi spec = Some "sfwa-abi-1"))).
  { apply trace_bind_Forall; [apply Hemit; reflexivity | intros _; constructor]. }
  apply trace_bind_Forall.
  { apply trace_bind_Forall; [apply Hemit; reflexivity | intros _; constructor]. }
  intros [e | html_text].
  { apply trace_bind_Forall; [apply Hemit; reflexivity | intros _; constructor]. }
  apply trace_bind_Forall.
  { assert (Hrun : arg_mode args <> ModeJs ->
      Forall P (trace (r ← check_html H spec html_text;
                       (mret ([] ++ [("html", r)], true && ok r)
                          : M (list (string * CheckResult) * bool))))).
    { intros Hne. apply trace_bind_Forall; [| intros r; apply trace_mret_Forall].
      eapply List.Forall_impl; [| apply check_html_trace].
      intros ev Hev. exact (Hs Hne ev Hev). }
    destruct (arg_mode args);
      [apply Hrun; discriminate | apply trace_mret_Forall | apply Hrun; discriminate]. }
  intros [results overall_ok]. apply trace_bind_Forall.
  { assert (Hrun : arg_mode args <> ModeHtml ->
      Forall P (trace (r ← check_js H (arg_spec args) (arg_html args)
                             (arg_node_harness args);
                       (mret (results ++ [("js", r)], overall_ok && ok r)
                          : M (list (string * CheckResult) * bool))))).
    { intros Hne. apply trace_bind_Forall; [| intros r; apply trace_mret_Forall].
      eapply List.Forall_impl; [| apply check_js_trace].
      intros ev Hev. exact (Hb Hne ev Hev). }
    destruct (arg_mode args);
      [apply trace_mret_Forall | apply Hrun; discriminate | apply Hrun; discriminate]. }
  intros [results' overall_ok']. apply trace_bind_Forall; [| intros _; constructor].
  destruct (arg_json args); [apply Hemit; reflexivity |].
  apply trace_bind_Forall; [apply Hemit; reflexivity | intros _].
  apply trace_bind_Forall; [apply print_kind_trace; exact HP | intros _].
  apply trace_bind_Forall; [apply print_kind_trace; exact HP | intros _].
  apply Hemit; reflexivity.
Qed.

(** X19: the mode keeps the checks apart on every run of [main], however
    it ends: in mode [html] no subprocess is run and no payload is
    decoded; in mode [js] the document is not parsed and no query is
    evaluated. *)
Theorem modes_keep_checks_apart (H : Host) (args : Args) :
  (arg_mode args = ModeHtml ->
   Forall (fun e => bridge_event e = false) (trace (main H args))) /\
  (arg_mode args = ModeJs ->
   Forall (fun e => structural_event e = false) (trace (main H args))).
Proof.
  split; intros Hm; apply main_trace.
  - intros e _ E. exact E.
  - intros _ e E. destruct e; try discriminate; reflexivity.
  - intros Hne. congruence.
  - intros e E _. exact E.
  - intros Hne. congruence.
  - intros _ e E. destruct e; try discriminate; reflexivity.
Qed.

Lemma modes_keep_checks_apart_witness :
  trace (main (host_full app_page app_spec bare_failure_run (inr bare_failure_payload))
           (args_in ModeHtml false)) =
    [EvReadJson "app.sfwa-abi.json"; EvReadText "app.html"; EvFromstring app_text;
     EvXPath "//*[@id='app']"; EvXPath "//title"; EvXPath "//*[@data-role='main']";
     EvPrint Stdout "SFWA Harness Report: None"; EvPrint Stdout "  HTML: PASS";
     EvPrint Stdout "Overall: PASS"] /\
  Forall (fun e => bridge_event e = false)
    (trace (main (host_full app_page app_spec bare_failure_run (inr bare_failure_payload))
              (args_in ModeHtml false))) /\
  Forall (fun e => structural_event e = false)
    (trace (main (host_full app_page app_spec bare_failure_run (inr bare_failure_payload))
              (args_in ModeJs false))).
Proof.
  split; [reflexivity |]. split.
  - exact (proj1 (modes_keep_checks_apart
                    (host_full app_page app_spec bare_failure_run
                       (inr bare_failure_payload)) (args_in ModeHtml false)) eq_refl).
  - exact (proj2 (modes_keep_checks_apart
                    (host_full app_page app_spec bare_failure_run
                       (inr bare_failure_payload)) (args_in ModeJs false)) eq_refl).
Defined.
